(** * Multi-Agent Interviewer: the turn-taking workflow, the prompt builder
      and the evaluation parser, embedded from the Python sources.

    Layout, following the repository:
    - [PyStr]      the [str] operations the sources use (ASCII text);
    - [Agent], [Round], records of [src/graph/state.py];
    - [Templates]  [src/prompts/templates.py] ([get_agent_prompt]);
    - [EvaluationAgent]  [src/agents/evaluation_agent.py] (summary, parser);
    - [Workflow]   the persona agents of [src/agents/*.py] and
                   [src/graph/workflow.py] (nodes, routers, graph, answers);
    - the properties, one theorem per claim.

    Text is modelled as [string] and read as ASCII: a character above 127 is
    an opaque letter (no case, not a digit, not white space).  The model
    client is a function of the prompt and of the prompts sent before; a
    failing call of the hosted model is outside the development. *)

From Stdlib Require Import ZArith List Bool Lia Ascii String.
From Stdlib Require Import Numbers.DecimalString.
Import ListNotations.

Local Open Scope string_scope.
Local Open Scope Z_scope.

(* ------------------------------------------------------------------ *)
(** ** Python [str] operations *)

Module PyStr.

(** [str.isspace] on ASCII: TAB..CR, FS..US and the space. *)
Definition is_space (c : ascii) : bool :=
  let n := nat_of_ascii c in
  ((9 <=? n) && (n <=? 13) || (28 <=? n) && (n <=? 32))%nat.

(** [\d] of [re] on ASCII. *)
Definition is_digit (c : ascii) : bool :=
  let n := nat_of_ascii c in ((48 <=? n) && (n <=? 57))%nat.

Definition digit_value (c : ascii) : Z := Z.of_nat (nat_of_ascii c) - 48.

Definition upper_char (c : ascii) : ascii :=
  let n := nat_of_ascii c in
  if ((97 <=? n) && (n <=? 122))%nat then ascii_of_nat (n - 32) else c.

(** [s.upper()] *)
Fixpoint upper (s : string) : string :=
  match s with
  | EmptyString => EmptyString
  | String c r => String (upper_char c) (upper r)
  end.

(** [s.lstrip(chars)]: drop the leading characters that occur in [chars]. *)
Fixpoint lstrip_where (p : ascii -> bool) (s : string) : string :=
  match s with
  | EmptyString => EmptyString
  | String c r => if p c then lstrip_where p r else s
  end.

Fixpoint rstrip_where (p : ascii -> bool) (s : string) : string :=
  match s with
  | EmptyString => EmptyString
  | String c r =>
      match rstrip_where p r with
      | EmptyString => if p c then EmptyString else String c EmptyString
      | r' => String c r'
      end
  end.

(** [s.strip()] *)
Definition strip (s : string) : string :=
  lstrip_where is_space (rstrip_where is_space s).

Fixpoint mem_char (c : ascii) (chars : string) : bool :=
  match chars with
  | EmptyString => false
  | String d r => Ascii.eqb c d || mem_char c r
  end.

Definition lstrip_chars (chars s : string) : string :=
  lstrip_where (fun c => mem_char c chars) s.

Definition newline : ascii := "010"%char.

(** [s.split('\n')]: never empty, [''.split('\n') == ['']]. *)
Fixpoint split_lines (s : string) : list string :=
  match s with
  | EmptyString => [EmptyString]
  | String c r =>
      if Ascii.eqb c newline then EmptyString :: split_lines r
      else match split_lines r with
           | h :: t => String c h :: t
           | [] => [String c EmptyString]
           end
  end.

(** [needle in hay] *)
Fixpoint contains (needle hay : string) : bool :=
  String.prefix needle hay ||
  match hay with
  | EmptyString => false
  | String _ r => contains needle r
  end.

Fixpoint take_digits (s : string) : string :=
  match s with
  | EmptyString => EmptyString
  | String c r => if is_digit c then String c (take_digits r) else EmptyString
  end.

(** [re.search(r'(\d+)', s)]: the leftmost maximal run of digits. *)
Fixpoint search_digits (s : string) : option string :=
  match s with
  | EmptyString => None
  | String c r => if is_digit c then Some (take_digits s) else search_digits r
  end.

Fixpoint int_acc (acc : Z) (s : string) : Z :=
  match s with
  | EmptyString => acc
  | String c r => int_acc (10 * acc + digit_value c) r
  end.

(** [int(s)] on a run of digits.  CPython refuses a decimal string longer
    than [sys.get_int_max_str_digits()] with [ValueError]; a limit of 0
    switches the check off. *)
Definition int_of_digits (max_str_digits : nat) (s : string) : option Z :=
  if (negb (max_str_digits =? 0) && (max_str_digits <? String.length s))%nat
  then None
  else Some (int_acc 0 s).

(** The limit CPython starts with. *)
Definition default_max_str_digits : nat := 4300.

(** [sep.join(parts)] *)
Fixpoint join (sep : string) (parts : list string) : string :=
  match parts with
  | [] => EmptyString
  | [p] => p
  | p :: rest => p ++ sep ++ join sep rest
  end.

(** [s[:n]] *)
Definition slice_to (n : nat) (s : string) : string := String.substring 0 n s.

(** Truth value of a [str]. *)
Definition truthy (s : string) : bool :=
  match s with EmptyString => false | _ => true end.

(** Truth value of an [Optional[str]]. *)
Definition truthy_opt (o : option string) : bool :=
  match o with Some s => truthy s | None => false end.

(** [str(n)] for an [int]. *)
Definition str_of_Z (n : Z) : string := NilZero.string_of_int (Z.to_int n).

Definition str_of_nat (n : nat) : string := NilZero.string_of_uint (Nat.to_uint n).

Definition nl : string := String newline EmptyString.

End PyStr.

(* ------------------------------------------------------------------ *)
(** ** [src/graph/state.py] *)

(** The values of [InterviewState.current_agent]. *)
Module Agent.
Inductive t := technical | hr | manager | complete | evaluation.

Definition eqb (a b : t) : bool :=
  match a, b with
  | technical, technical | hr, hr | manager, manager
  | complete, complete | evaluation, evaluation => true
  | _, _ => false
  end.
End Agent.

(** [Literal["technical", "hr", "manager"]], the tag pydantic accepts in
    [Message.agent_type] and [QuestionAnswer.agent_type]. *)
Module Round.
Inductive t := technical | hr | manager.

Definition to_agent (r : t) : Agent.t :=
  match r with
  | technical => Agent.technical
  | hr => Agent.hr
  | manager => Agent.manager
  end.

(** Validation of the [Literal] field when the model is constructed:
    [None] stands for pydantic's [ValidationError]. *)
Definition validate (a : Agent.t) : option t :=
  match a with
  | Agent.technical => Some technical
  | Agent.hr => Some hr
  | Agent.manager => Some manager
  | Agent.complete | Agent.evaluation => None
  end.
End Round.

Inductive Role := role_agent | role_user.

Record Message := mkMessage {
  role : Role;
  content : string;
  msg_agent_type : option Round.t
}.

Record QuestionAnswer := mkQA {
  question : string;
  answer : option string;
  agent_type : Round.t
}.

(** The dictionary built by [EvaluationAgent._parse_evaluation]. *)
Record EvaluationDict := mkEvaluation {
  score : Z;
  strengths : list string;
  weaknesses : list string;
  suggestions : list string;
  overall_feedback : string
}.

Record InterviewState := mkState {
  candidate_name : string;
  job_role : string;
  experience_level : string;
  resume_text : option string;
  current_agent : Agent.t;
  technical_questions_asked : Z;
  hr_questions_asked : Z;
  manager_questions_asked : Z;
  conversation_history : list Message;
  qa_pairs : list QuestionAnswer;
  is_complete : bool;
  current_question : option string;
  last_answer : option string;
  evaluation : option EvaluationDict
}.

Definition create_initial_state (name role_ level : string)
    (resume : option string) : InterviewState :=
  {| candidate_name := name;
     job_role := role_;
     experience_level := level;
     resume_text := resume;
     current_agent := Agent.technical;
     technical_questions_asked := 0;
     hr_questions_asked := 0;
     manager_questions_asked := 0;
     conversation_history := [];
     qa_pairs := [];
     is_complete := false;
     current_question := None;
     last_answer := None;
     evaluation := None |}.

(** Item assignment [state[key] = value], one function per key written by
    the workflow. *)
Definition set_current_question (q : option string) (s : InterviewState) :=
  {| candidate_name := candidate_name s; job_role := job_role s;
     experience_level := experience_level s; resume_text := resume_text s;
     current_agent := current_agent s;
     technical_questions_asked := technical_questions_asked s;
     hr_questions_asked := hr_questions_asked s;
     manager_questions_asked := manager_questions_asked s;
     conversation_history := conversation_history s;
     qa_pairs := qa_pairs s; is_complete := is_complete s;
     current_question := q;
     last_answer := last_answer s; evaluation := evaluation s |}.

Definition set_current_agent (a : Agent.t) (s : InterviewState) :=
  {| candidate_name := candidate_name s; job_role := job_role s;
     experience_level := experience_level s; resume_text := resume_text s;
     current_agent := a;
     technical_questions_asked := technical_questions_asked s;
     hr_questions_asked := hr_questions_asked s;
     manager_questions_asked := manager_questions_asked s;
     conversation_history := conversation_history s;
     qa_pairs := qa_pairs s; is_complete := is_complete s;
     current_question := current_question s;
     last_answer := last_answer s; evaluation := evaluation s |}.

Definition set_conversation_history (h : list Message) (s : InterviewState) :=
  {| candidate_name := candidate_name s; job_role := job_role s;
     experience_level := experience_level s; resume_text := resume_text s;
     current_agent := current_agent s;
     technical_questions_asked := technical_questions_asked s;
     hr_questions_asked := hr_questions_asked s;
     manager_questions_asked := manager_questions_asked s;
     conversation_history := h;
     qa_pairs := qa_pairs s; is_complete := is_complete s;
     current_question := current_question s;
     last_answer := last_answer s; evaluation := evaluation s |}.

Definition set_qa_pairs (l : list QuestionAnswer) (s : InterviewState) :=
  {| candidate_name := candidate_name s; job_role := job_role s;
     experience_level := experience_level s; resume_text := resume_text s;
     current_agent := current_agent s;
     technical_questions_asked := technical_questions_asked s;
     hr_questions_asked := hr_questions_asked s;
     manager_questions_asked := manager_questions_asked s;
     conversation_history := conversation_history s;
     qa_pairs := l; is_complete := is_complete s;
     current_question := current_question s;
     last_answer := last_answer s; evaluation := evaluation s |}.

Definition set_counters (t h m : Z) (s : InterviewState) :=
  {| candidate_name := candidate_name s; job_role := job_role s;
     experience_level := experience_level s; resume_text := resume_text s;
     current_agent := current_agent s;
     technical_questions_asked := t;
     hr_questions_asked := h;
     manager_questions_asked := m;
     conversation_history := conversation_history s;
     qa_pairs := qa_pairs s; is_complete := is_complete s;
     current_question := current_question s;
     last_answer := last_answer s; evaluation := evaluation s |}.

Definition set_last_answer (a : option string) (s : InterviewState) :=
  {| candidate_name := candidate_name s; job_role := job_role s;
     experience_level := experience_level s; resume_text := resume_text s;
     current_agent := current_agent s;
     technical_questions_asked := technical_questions_asked s;
     hr_questions_asked := hr_questions_asked s;
     manager_questions_asked := manager_questions_asked s;
     conversation_history := conversation_history s;
     qa_pairs := qa_pairs s; is_complete := is_complete s;
     current_question := current_question s;
     last_answer := a; evaluation := evaluation s |}.

Definition set_evaluation (e : option EvaluationDict) (s : InterviewState) :=
  {| candidate_name := candidate_name s; job_role := job_role s;
     experience_level := experience_level s; resume_text := resume_text s;
     current_agent := current_agent s;
     technical_questions_asked := technical_questions_asked s;
     hr_questions_asked := hr_questions_asked s;
     manager_questions_asked := manager_questions_asked s;
     conversation_history := conversation_history s;
     qa_pairs := qa_pairs s; is_complete := is_complete s;
     current_question := current_question s;
     last_answer := last_answer s; evaluation := e |}.

Definition set_is_complete (b : bool) (s : InterviewState) :=
  {| candidate_name := candidate_name s; job_role := job_role s;
     experience_level := experience_level s; resume_text := resume_text s;
     current_agent := current_agent s;
     technical_questions_asked := technical_questions_asked s;
     hr_questions_asked := hr_questions_asked s;
     manager_questions_asked := manager_questions_asked s;
     conversation_history := conversation_history s;
     qa_pairs := qa_pairs s; is_complete := b;
     current_question := current_question s;
     last_answer := last_answer s; evaluation := evaluation s |}.

(** The counter of a round, [state[f"{round}_questions_asked"]]. *)
Definition questions_asked (r : Round.t) (s : InterviewState) : Z :=
  match r with
  | Round.technical => technical_questions_asked s
  | Round.hr => hr_questions_asked s
  | Round.manager => manager_questions_asked s
  end.

(** [config/settings.py]: the three maxima, read from the environment with
    [int(os.getenv(...))]. *)
Record Settings := mkSettings {
  MAX_TECHNICAL_QUESTIONS : Z;
  MAX_HR_QUESTIONS : Z;
  MAX_MANAGER_QUESTIONS : Z
}.

Definition default_settings : Settings := mkSettings 6 3 2.

(* ------------------------------------------------------------------ *)
(** ** [src/prompts/templates.py] *)

Module Templates.

(** A format string, already split at its replacement fields. *)
Inductive segment (F : Type) :=
| Lit (text : string)
| Field (name : F).
Arguments Lit {F} text.
Arguments Field {F} name.

Definition template (F : Type) := list (segment F).

(** [template.format] with its keyword arguments *)
Fixpoint format {F : Type} (t : template F) (env : F -> string) : string :=
  match t with
  | [] => EmptyString
  | Lit text :: rest => text ++ format rest env
  | Field name :: rest => env name ++ format rest env
  end.

(** The keyword arguments [get_agent_prompt] passes to [format]. *)
Inductive prompt_field :=
| f_candidate_name | f_job_role | f_experience_level
| f_question_number | f_conversation_history.

(** The keyword arguments [generate_evaluation] passes to [format]. *)
Inductive evaluation_field :=
| e_candidate_name | e_job_role | e_experience_level | e_interview_summary.

Definition resume_header : string :=
  PyStr.nl ++ PyStr.nl ++ "CANDIDATE'S RESUME:" ++ PyStr.nl.

Definition continuation_marker : string := "...(resume continues)".

Definition resume_footer : string :=
  PyStr.nl ++ PyStr.nl ++
  "Use this resume information to ask more personalized and relevant questions based on the candidate's actual experience and skills.".

Section Prompts.

(** [prompts[agent_type]["first" | "regular"]]: the six prompt texts are
    constants of the module; the development is parametric in them. *)
Variable prompts : Round.t -> bool -> template prompt_field.

Definition resume_context (resume_text : option string) : string :=
  match resume_text with
  | None => EmptyString
  | Some text =>
      if PyStr.truthy text then
        let truncated_resume := PyStr.slice_to 2000 text in
        resume_header ++ truncated_resume ++ PyStr.nl ++
        (if (2000 <? String.length text)%nat
         then continuation_marker else EmptyString) ++
        resume_footer
      else EmptyString
  end.

Definition get_agent_prompt (agent_type : Round.t)
    (candidate_name job_role experience_level : string)
    (question_number : Z) (conversation_history : string)
    (is_first_question : bool) (resume_text : option string) : string :=
  let prompt_template := prompts agent_type is_first_question in
  let formatted_prompt :=
    format prompt_template (fun f =>
      match f with
      | f_candidate_name => candidate_name
      | f_job_role => job_role
      | f_experience_level => experience_level
      | f_question_number => PyStr.str_of_Z question_number
      | f_conversation_history => conversation_history
      end) in
  formatted_prompt ++ resume_context resume_text.

End Prompts.

End Templates.

(* ------------------------------------------------------------------ *)
(** ** [src/agents/evaluation_agent.py]: the parser *)

Module EvaluationAgent.

Inductive section_key :=
| k_strengths | k_weaknesses | k_suggestions | k_overall_feedback.

(** The loop state of [_parse_evaluation]: the dictionary under
    construction and the [current_section] pointer. *)
Record parse_state := mkParse {
  acc : EvaluationDict;
  current_section : option section_key
}.

Definition with_score (n : Z) (e : EvaluationDict) : EvaluationDict :=
  mkEvaluation n (strengths e) (weaknesses e) (suggestions e)
               (overall_feedback e).

Definition with_overall_feedback (t : string) (e : EvaluationDict) :=
  mkEvaluation (score e) (strengths e) (weaknesses e) (suggestions e) t.

(** [evaluation[key].append(line)] and
    [evaluation["overall_feedback"] += line + " "]. *)
Definition add_content (k : section_key) (line : string)
    (e : EvaluationDict) : EvaluationDict :=
  match k with
  | k_strengths =>
      mkEvaluation (score e) (strengths e ++ [line]) (weaknesses e)
                   (suggestions e) (overall_feedback e)
  | k_weaknesses =>
      mkEvaluation (score e) (strengths e) (weaknesses e ++ [line])
                   (suggestions e) (overall_feedback e)
  | k_suggestions =>
      mkEvaluation (score e) (strengths e) (weaknesses e)
                   (suggestions e ++ [line]) (overall_feedback e)
  | k_overall_feedback =>
      with_overall_feedback (overall_feedback e ++ line ++ " ") e
  end.

Definition empty_evaluation : EvaluationDict :=
  mkEvaluation 0 [] [] [] EmptyString.

(** The characters of the literal given to [lstrip] that are ASCII; the
    other three characters of that literal are above 127. *)
Definition bullet_chars : string := "-*".

Definition is_score_line (line : string) : bool :=
  PyStr.contains "SCORE:" (PyStr.upper line) ||
  PyStr.contains "OVERALL SCORE:" (PyStr.upper line).

Section Parser.

(** [sys.get_int_max_str_digits()], 4300 by default. *)
Variable max_str_digits : nat.

(** The [try] block of a score line: [None] when nothing is assigned
    (no digits, or [int] raised and the bare [except] swallowed it). *)
Definition extract_score (line : string) : option Z :=
  match PyStr.search_digits line with
  | Some digits =>
      match PyStr.int_of_digits max_str_digits digits with
      | Some n => Some (Z.min 100 (Z.max 0 n))
      | None => None
      end
  | None => None
  end.

(** One iteration of the [for line in lines] loop. *)
Definition parse_line (st : parse_state) (raw : string) : parse_state :=
  let line := PyStr.strip raw in
  let up := PyStr.upper line in
  if is_score_line line then
    match extract_score line with
    | Some n => mkParse (with_score n (acc st)) (current_section st)
    | None => st
    end
  else if PyStr.contains "STRENGTHS:" up then
    mkParse (acc st) (Some k_strengths)
  else if PyStr.contains "WEAKNESSES:" up
          || PyStr.contains "AREAS FOR IMPROVEMENT:" up then
    mkParse (acc st) (Some k_weaknesses)
  else if PyStr.contains "SUGGESTIONS:" up
          || PyStr.contains "RECOMMENDATIONS:" up then
    mkParse (acc st) (Some k_suggestions)
  else if PyStr.contains "OVERALL FEEDBACK:" up
          || PyStr.contains "SUMMARY:" up then
    mkParse (acc st) (Some k_overall_feedback)
  else
    match current_section st with
    | Some k =>
        if PyStr.truthy line then
          let cleaned_line :=
            PyStr.strip (PyStr.lstrip_chars bullet_chars line) in
          if PyStr.truthy cleaned_line
          then mkParse (add_content k cleaned_line (acc st)) (Some k)
          else st
        else st
    | None => st
    end.

Definition parse_lines (lines : list string) : parse_state :=
  fold_left parse_line lines (mkParse empty_evaluation None).

Definition is_nil {A : Type} (l : list A) : bool :=
  match l with [] => true | _ => false end.

Definition _parse_evaluation (evaluation_text : string) : EvaluationDict :=
  let lines := PyStr.split_lines (PyStr.strip evaluation_text) in
  let e := acc (parse_lines lines) in
  if is_nil (strengths e) && is_nil (weaknesses e)
  then with_overall_feedback evaluation_text e
  else e.

End Parser.

(** [_build_interview_summary]: the rounds in fixed order, each with its
    pairs numbered from 1. *)
Definition answer_or_default (a : option string) : string :=
  match a with
  | Some t => if PyStr.truthy t then t else "No answer provided"
  | None => "No answer provided"
  end.

Fixpoint round_lines (i : nat) (qas : list QuestionAnswer) : list string :=
  match qas with
  | [] => []
  | qa :: rest =>
      (PyStr.nl ++ "Q" ++ PyStr.str_of_nat i ++ ": " ++ question qa)
      :: ("A" ++ PyStr.str_of_nat i ++ ": " ++ answer_or_default (answer qa)
          ++ PyStr.nl)
      :: round_lines (S i) rest
  end.

Definition round_eqb (a b : Round.t) : bool :=
  Agent.eqb (Round.to_agent a) (Round.to_agent b).

Definition round_part (header : string) (r : Round.t)
    (qa_pairs : list QuestionAnswer) : list string :=
  match filter (fun qa => round_eqb (agent_type qa) r) qa_pairs with
  | [] => []
  | qas => header :: round_lines 1 qas
  end.

Definition _build_interview_summary (state : InterviewState) : string :=
  match qa_pairs state with
  | [] => "No interview data available."
  | qas =>
      PyStr.join PyStr.nl
        ((round_part "=== TECHNICAL ROUND ===" Round.technical qas
         ++ round_part (PyStr.nl ++ "=== HR ROUND ===") Round.hr qas
         ++ round_part (PyStr.nl ++ "=== MANAGERIAL ROUND ===")
              Round.manager qas)%list)
  end.

End EvaluationAgent.

(* ------------------------------------------------------------------ *)
(** ** The model client and the persona agents *)

(** The prompts sent to the model so far, oldest first. *)
Definition Log := list string.

(** Computations that call the model: the log is threaded through. *)
Definition M (A : Type) : Type := Log -> A * Log.

Definition ret {A : Type} (a : A) : M A := fun log => (a, log).

Definition bind {A B : Type} (c : M A) (k : A -> M B) : M B :=
  fun log => let (a, log') := c log in k a log'.

Notation "x <- c ;; k" := (bind c (fun x => k))
  (at level 61, c at next level, right associativity).

Inductive exn := GraphRecursionError | ValidationError.

(** What the caller of an operation is left with: the returned state, or
    an exception together with the state object as the call left it (lists
    are appended to in place). *)
Inductive outcome :=
| Returned (s : InterviewState)
| Raised (e : exn) (s : InterviewState).

Definition state_of (o : outcome) : InterviewState :=
  match o with Returned s => s | Raised _ s => s end.

Module Workflow.
Section Interview.

Variable settings : Settings.
Variable prompts : Round.t -> bool -> Templates.template Templates.prompt_field.
Variable EVALUATION_AGENT_SYSTEM_PROMPT :
  Templates.template Templates.evaluation_field.

(** [self.llm.invoke(prompt).content]: the reply may depend on the prompt
    and on everything asked before. *)
Variable llm : Log -> string -> string.

Variable max_str_digits : nat.

(** The number of nodes one [graph.invoke] may execute before LangGraph
    raises [GraphRecursionError]. *)
Variable recursion_limit : nat.

Definition llm_invoke (prompt : string) : M string :=
  fun log => (llm log prompt, (log ++ [prompt])%list).

(** [BaseAgent.generate_question] *)
Definition generate_question (prompt : string) : M string :=
  llm_invoke prompt.

(** [messages[-5:]] *)
Definition last_five {A : Type} (l : list A) : list A :=
  skipn (List.length l - 5) l.

(** [HRAgent._build_conversation_history] *)
Definition _build_conversation_history (messages : list Message) : string :=
  match messages with
  | [] => "No previous conversation."
  | _ =>
      PyStr.join PyStr.nl
        (map (fun msg =>
                (match role msg with
                 | role_agent => "Interviewer"
                 | role_user => "Candidate"
                 end) ++ ": " ++ content msg)
             (last_five messages))
  end.

(** [HRAgent.ask_question], with [self.agent_type = "hr"]. *)
Definition HRAgent_ask_question (state : InterviewState) : M string :=
  let question_number := hr_questions_asked state + 1 in
  let is_first := question_number =? 1 in
  let conversation_history :=
    _build_conversation_history (conversation_history state) in
  let prompt :=
    Templates.get_agent_prompt prompts Round.hr
      (candidate_name state) (job_role state) (experience_level state)
      question_number conversation_history is_first (resume_text state) in
  generate_question prompt.

(** Modelled from the spec: [TechnicalAgent.ask_question] of
    [src/agents/technical_agent.py], which is not among the sources.  The
    three persona agents have one shape and differ in configuration: the
    technical one selects its templates and reads its round's counter. *)
Definition TechnicalAgent_ask_question (state : InterviewState) : M string :=
  let question_number := technical_questions_asked state + 1 in
  let is_first := question_number =? 1 in
  let conversation_history :=
    _build_conversation_history (conversation_history state) in
  let prompt :=
    Templates.get_agent_prompt prompts Round.technical
      (candidate_name state) (job_role state) (experience_level state)
      question_number conversation_history is_first (resume_text state) in
  generate_question prompt.

(** Modelled from the spec: [ManagerAgent.ask_question] of
    [src/agents/manager_agent.py], which is not among the sources; the
    same shape with the manager's templates and counter. *)
Definition ManagerAgent_ask_question (state : InterviewState) : M string :=
  let question_number := manager_questions_asked state + 1 in
  let is_first := question_number =? 1 in
  let conversation_history :=
    _build_conversation_history (conversation_history state) in
  let prompt :=
    Templates.get_agent_prompt prompts Round.manager
      (candidate_name state) (job_role state) (experience_level state)
      question_number conversation_history is_first (resume_text state) in
  generate_question prompt.

(** [EvaluationAgent.generate_evaluation] *)
Definition generate_evaluation (state : InterviewState) : M EvaluationDict :=
  let interview_summary := EvaluationAgent._build_interview_summary state in
  let prompt :=
    Templates.format EVALUATION_AGENT_SYSTEM_PROMPT (fun f =>
      match f with
      | Templates.e_candidate_name => candidate_name state
      | Templates.e_job_role => job_role state
      | Templates.e_experience_level => experience_level state
      | Templates.e_interview_summary => interview_summary
      end) in
  evaluation_text <- llm_invoke prompt ;;
  ret (EvaluationAgent._parse_evaluation max_str_digits evaluation_text).

(* ---------------------------------------------------------------- *)
(** ** [src/graph/workflow.py] *)

Definition append_message (m : Message) (s : InterviewState) :=
  set_conversation_history (conversation_history s ++ [m]) s.

Definition _technical_node (state : InterviewState) : M InterviewState :=
  question <- TechnicalAgent_ask_question state ;;
  let state := set_current_question (Some question) state in
  let message := mkMessage role_agent question (Some Round.technical) in
  ret (append_message message state).

Definition _hr_node (state : InterviewState) : M InterviewState :=
  question <- HRAgent_ask_question state ;;
  let state := set_current_question (Some question) state in
  let state := set_current_agent Agent.hr state in
  let message := mkMessage role_agent question (Some Round.hr) in
  ret (append_message message state).

Definition _manager_node (state : InterviewState) : M InterviewState :=
  question <- ManagerAgent_ask_question state ;;
  let state := set_current_question (Some question) state in
  let state := set_current_agent Agent.manager state in
  let message := mkMessage role_agent question (Some Round.manager) in
  ret (append_message message state).

Definition _evaluation_node (state : InterviewState) : M InterviewState :=
  evaluation <- generate_evaluation state ;;
  let state := set_evaluation (Some evaluation) state in
  let state := set_is_complete true state in
  let state := set_current_agent Agent.evaluation state in
  ret state.

Inductive route_technical := rt_hr | rt_continue | rt_end.
Inductive route_hr := rh_manager | rh_continue | rh_end.
Inductive route_manager := rm_evaluation | rm_continue | rm_end.

Definition _route_from_technical (state : InterviewState) : route_technical :=
  if MAX_TECHNICAL_QUESTIONS settings <=? technical_questions_asked state
  then rt_hr
  else if PyStr.truthy_opt (current_question state) then rt_end
  else rt_continue.

Definition _route_from_hr (state : InterviewState) : route_hr :=
  if MAX_HR_QUESTIONS settings <=? hr_questions_asked state
  then rh_manager
  else if PyStr.truthy_opt (current_question state) then rh_end
  else rh_continue.

Definition _route_from_manager (state : InterviewState) : route_manager :=
  if MAX_MANAGER_QUESTIONS settings <=? manager_questions_asked state
  then rm_evaluation
  else if PyStr.truthy_opt (current_question state) then rm_end
  else rm_continue.

(** The graph of [_create_graph]: four nodes, entry point [technical],
    one conditional edge out of each persona node and a plain edge from
    [evaluation] to [END]. *)
Inductive node := n_technical | n_hr | n_manager | n_evaluation.
Inductive target := goto (n : node) | END.

Definition run_node (n : node) : InterviewState -> M InterviewState :=
  match n with
  | n_technical => _technical_node
  | n_hr => _hr_node
  | n_manager => _manager_node
  | n_evaluation => _evaluation_node
  end.

Definition edge (n : node) (state : InterviewState) : target :=
  match n with
  | n_technical =>
      match _route_from_technical state with
      | rt_hr => goto n_hr
      | rt_continue => goto n_technical
      | rt_end => END
      end
  | n_hr =>
      match _route_from_hr state with
      | rh_manager => goto n_manager
      | rh_continue => goto n_hr
      | rh_end => END
      end
  | n_manager =>
      match _route_from_manager state with
      | rm_evaluation => goto n_evaluation
      | rm_continue => goto n_manager
      | rm_end => END
      end
  | n_evaluation => END
  end.

Definition entry_point : node := n_technical.

(** [graph.invoke]: run the node, apply what it returns, follow the edge
    computed on the updated state.  The left result is the state at
    [END]; the right one the state reached when the limit is hit.  The
    visited nodes are recorded in order. *)
Fixpoint invoke_from (fuel : nat) (n : node) (visited : list node)
    (state : InterviewState)
    : M ((InterviewState + InterviewState) * list node) :=
  match fuel with
  | O => ret (inr state, visited)
  | S fuel' =>
      state' <- run_node n state ;;
      match edge n state' with
      | goto n' => invoke_from fuel' n' (visited ++ [n])%list state'
      | END => ret (inl state', (visited ++ [n])%list)
      end
  end.

Definition graph_invoke (state : InterviewState)
    : M ((InterviewState + InterviewState) * list node) :=
  invoke_from recursion_limit entry_point [] state.

(** [InterviewWorkflow.run_step].  When the graph raises, the caller
    still holds the dictionary it passed in, whose [conversation_history]
    list is the one the nodes appended to. *)
Definition run_step (state : InterviewState) : M outcome :=
  r <- graph_invoke state ;;
  match fst r with
  | inl result => ret (Returned result)
  | inr reached =>
      ret (Raised GraphRecursionError
             (set_conversation_history (conversation_history reached) state))
  end.

(** The nodes one [run_step] executes. *)
Definition nodes_visited (state : InterviewState) (log : Log) : list node :=
  snd (fst (graph_invoke state log)).

(** [InterviewWorkflow.process_answer] *)
Definition process_answer (state : InterviewState) (answer : string)
    : outcome :=
  let message := mkMessage role_user answer None in
  let state := append_message message state in
  let after_pair :=
    match current_question state with
    | Some q =>
        if PyStr.truthy q then
          match Round.validate (current_agent state) with
          | None => inr state
          | Some tag =>
              let qa_pair := mkQA q (Some answer) tag in
              let state := set_qa_pairs (qa_pairs state ++ [qa_pair]) state in
              inl
                match tag with
                | Round.technical =>
                    set_counters (technical_questions_asked state + 1)
                      (hr_questions_asked state)
                      (manager_questions_asked state) state
                | Round.hr =>
                    set_counters (technical_questions_asked state)
                      (hr_questions_asked state + 1)
                      (manager_questions_asked state) state
                | Round.manager =>
                    set_counters (technical_questions_asked state)
                      (hr_questions_asked state)
                      (manager_questions_asked state + 1) state
                end
          end
        else inl state
    | None => inl state
    end in
  match after_pair with
  | inr state => Raised ValidationError state
  | inl state =>
      let state := set_current_question None state in
      let state := set_last_answer (Some answer) state in
      Returned state
  end.

(** [show_interview_screen] of [app.py] asks for the next question only
    when none is pending:
    [if not state.get('current_question'): state = workflow.run_step(state)]. *)
Definition next_question_if_needed (state : InterviewState) : M outcome :=
  if PyStr.truthy_opt (current_question state)
  then ret (Returned state)
  else run_step state.

End Interview.
End Workflow.

(* ------------------------------------------------------------------ *)
(** ** Sequences of calls made by a presentation layer *)

Inductive call := Step | Answer (text : string).

(** The bookkeeping invariant of the state record. *)
Definition pairs_match_counters (s : InterviewState) : Prop :=
  Z.of_nat (List.length (qa_pairs s))
  = technical_questions_asked s + hr_questions_asked s
    + manager_questions_asked s.

(** Position of a tag in the order of the rounds. *)
Definition rank (a : Agent.t) : Z :=
  match a with
  | Agent.technical => 0
  | Agent.hr => 1
  | Agent.manager => 2
  | Agent.evaluation => 3
  | Agent.complete => 4
  end.

(** [chain R x l]: [R] relates each element of [x :: l] to the next one. *)
Fixpoint chain {A : Type} (R : A -> A -> Prop) (x : A) (l : list A) : Prop :=
  match l with
  | [] => True
  | y :: rest => R x y /\ chain R y rest
  end.

(** The three counters and the pairs list: what [process_answer] may
    change and the graph never does. *)
Definition same_progress (a b : InterviewState) : Prop :=
  technical_questions_asked a = technical_questions_asked b
  /\ hr_questions_asked a = hr_questions_asked b
  /\ manager_questions_asked a = manager_questions_asked b
  /\ qa_pairs a = qa_pairs b.

Definition round_of_node (n : Workflow.node) : option Round.t :=
  match n with
  | Workflow.n_technical => Some Round.technical
  | Workflow.n_hr => Some Round.hr
  | Workflow.n_manager => Some Round.manager
  | Workflow.n_evaluation => None
  end.

(** What a persona node does to the state, given the question text. *)
Definition asked (r : Round.t) (q : string) (s : InterviewState) :=
  let s := set_current_question (Some q) s in
  let s := match r with
           | Round.technical => s
           | Round.hr => set_current_agent Agent.hr s
           | Round.manager => set_current_agent Agent.manager s
           end in
  Workflow.append_message (mkMessage role_agent q (Some r)) s.

(** What the evaluation node does to the state, given the parsed result. *)
Definition evaluated (e : EvaluationDict) (s : InterviewState) :=
  set_current_agent Agent.evaluation
    (set_is_complete true (set_evaluation (Some e) s)).

Section Driver.

Variable settings : Settings.
Variable prompts : Round.t -> bool -> Templates.template Templates.prompt_field.
Variable EVALUATION_AGENT_SYSTEM_PROMPT :
  Templates.template Templates.evaluation_field.
Variable llm : Log -> string -> string.
Variable max_str_digits : nat.
Variable recursion_limit : nat.

Definition step (s : InterviewState) : M outcome :=
  Workflow.run_step settings prompts EVALUATION_AGENT_SYSTEM_PROMPT llm
    max_str_digits recursion_limit s.

(** The states a caller holds after each call of [calls], in order.  An
    [Answer] issued while no question is pending ends the sequence (the
    precondition of the operation); after an exception the caller goes
    on with the state object as the call left it. *)
Fixpoint run_calls (calls : list call) (s : InterviewState) (log : Log)
    : list InterviewState :=
  match calls with
  | [] => []
  | Step :: rest =>
      let (o, log') := step s log in
      state_of o :: run_calls rest (state_of o) log'
  | Answer text :: rest =>
      match current_question s with
      | None => []
      | Some _ =>
          let s' := state_of (Workflow.process_answer s text) in
          s' :: run_calls rest s' log
      end
  end.

(** The prompt a persona agent sends for a state. *)
Definition question_prompt (r : Round.t) (s : InterviewState) : string :=
  Templates.get_agent_prompt prompts r
    (candidate_name s) (job_role s) (experience_level s)
    (questions_asked r s + 1)
    (Workflow._build_conversation_history (conversation_history s))
    (questions_asked r s + 1 =? 1) (resume_text s).

(** The prompt the evaluation agent sends for a state. *)
Definition evaluation_prompt (s : InterviewState) : string :=
  Templates.format EVALUATION_AGENT_SYSTEM_PROMPT (fun f =>
    match f with
    | Templates.e_candidate_name => candidate_name s
    | Templates.e_job_role => job_role s
    | Templates.e_experience_level => experience_level s
    | Templates.e_interview_summary =>
        EvaluationAgent._build_interview_summary s
    end).

(** What must hold of the start state [s0] of an invocation when the
    graph enters node [n] with state [s]. *)
Definition entry_ok (s0 : InterviewState) (n : Workflow.node)
    (s : InterviewState) : Prop :=
  match n with
  | Workflow.n_technical => current_agent s = current_agent s0
  | Workflow.n_hr =>
      MAX_TECHNICAL_QUESTIONS settings <= technical_questions_asked s0
  | Workflow.n_manager =>
      MAX_TECHNICAL_QUESTIONS settings <= technical_questions_asked s0
      /\ MAX_HR_QUESTIONS settings <= hr_questions_asked s0
  | Workflow.n_evaluation =>
      MAX_TECHNICAL_QUESTIONS settings <= technical_questions_asked s0
      /\ MAX_HR_QUESTIONS settings <= hr_questions_asked s0
      /\ MAX_MANAGER_QUESTIONS settings <= manager_questions_asked s0
  end.

(** Where an invocation started in [s0] can come to rest. *)
Definition ended (s0 s' : InterviewState) : Prop :=
  (current_agent s' = current_agent s0
   /\ technical_questions_asked s0 < MAX_TECHNICAL_QUESTIONS settings)
  \/ (current_agent s' = Agent.hr
      /\ MAX_TECHNICAL_QUESTIONS settings <= technical_questions_asked s0
      /\ hr_questions_asked s0 < MAX_HR_QUESTIONS settings)
  \/ (current_agent s' = Agent.manager
      /\ MAX_TECHNICAL_QUESTIONS settings <= technical_questions_asked s0
      /\ MAX_HR_QUESTIONS settings <= hr_questions_asked s0
      /\ manager_questions_asked s0 < MAX_MANAGER_QUESTIONS settings)
  \/ (current_agent s' = Agent.evaluation
      /\ MAX_TECHNICAL_QUESTIONS settings <= technical_questions_asked s0
      /\ MAX_HR_QUESTIONS settings <= hr_questions_asked s0
      /\ MAX_MANAGER_QUESTIONS settings <= manager_questions_asked s0).

(** How far the counters allow [current_agent] to be: every round before
    the current one is exhausted and no later round has been answered. *)
Definition round_consistent (s : InterviewState) : Prop :=
  match current_agent s with
  | Agent.technical =>
      hr_questions_asked s = 0 /\ manager_questions_asked s = 0
  | Agent.hr =>
      MAX_TECHNICAL_QUESTIONS settings <= technical_questions_asked s
      /\ manager_questions_asked s = 0
  | Agent.manager =>
      MAX_TECHNICAL_QUESTIONS settings <= technical_questions_asked s
      /\ MAX_HR_QUESTIONS settings <= hr_questions_asked s
  | Agent.evaluation =>
      MAX_TECHNICAL_QUESTIONS settings <= technical_questions_asked s
      /\ MAX_HR_QUESTIONS settings <= hr_questions_asked s
      /\ MAX_MANAGER_QUESTIONS settings <= manager_questions_asked s
  | Agent.complete => False
  end.

End Driver.
(* ------------------------------------------------------------------ *)
(** ** Concrete interviews *)

(** Small prompt texts, one shape for every persona. *)
Definition demo_prompts (r : Round.t) (first : bool)
    : Templates.template Templates.prompt_field :=
  [Templates.Lit (if first then "Greet " else "Ask ");
   Templates.Field Templates.f_candidate_name;
   Templates.Lit " about ";
   Templates.Field Templates.f_job_role].

Definition demo_evaluation_prompt
    : Templates.template Templates.evaluation_field :=
  [Templates.Lit "Evaluate: ";
   Templates.Field Templates.e_interview_summary].

(** A model that numbers its questions and scores every candidate 70. *)
Definition demo_llm (log : Log) (prompt : string) : string :=
  if String.prefix "Evaluate: " prompt then "SCORE: 70"
  else "Question " ++ PyStr.str_of_nat (List.length log).

Definition one_each : Settings := mkSettings 1 1 1.

Definition no_hr_round : Settings := mkSettings 1 0 1.

Definition demo_step (cfg : Settings) (s : InterviewState) : M outcome :=
  Workflow.run_step cfg demo_prompts demo_evaluation_prompt demo_llm
    PyStr.default_max_str_digits 25 s.

Definition demo_run (cfg : Settings) (calls : list call)
    : list InterviewState :=
  run_calls cfg demo_prompts demo_evaluation_prompt demo_llm
    PyStr.default_max_str_digits 25 calls
    (create_initial_state "Ada" "Engineer" "Senior" None) [].

Definition demo_state : InterviewState :=
  create_initial_state "Ada" "Engineer" "Senior" None.

(** A resume of 5000 characters. *)
Definition long_resume : string :=
  String.concat EmptyString (List.repeat "0123456789" 500).

(** A question is pending. *)
Definition pending_state : InterviewState :=
  set_current_question (Some "What is a monad?") demo_state.

(** The pending question is the empty text. *)
Definition empty_question_state : InterviewState :=
  set_current_question (Some EmptyString) demo_state.

(** The technical round is over and nothing is pending. *)
Definition technical_done_state : InterviewState :=
  List.last (demo_run one_each [Step; Answer "x"]) demo_state.

(** All three rounds are over and nothing is pending. *)
Definition all_done_state : InterviewState :=
  List.last
    (demo_run one_each [Step; Answer "x"; Step; Answer "y"; Step; Answer "z"])
    demo_state.

(** The interview of one question per round, to its end. *)
Definition end_to_end : list InterviewState :=
  demo_run one_each
    [Step; Answer "x"; Step; Answer "y"; Step; Answer "z"; Step].

(* ------------------------------------------------------------------ *)
(** ** [main.py]: the loop of [run_interview] *)

(** [answer = input().strip()], asked again while the answer is empty:
    the first line of the input that is not blank, stripped, and the lines
    after it.  [None] when the input ends first. *)
Fixpoint read_answer (inputs : list string) : option (string * list string) :=
  match inputs with
  | [] => None
  | line :: rest =>
      if PyStr.truthy (PyStr.strip line)
      then Some (PyStr.strip line, rest)
      else read_answer rest
  end.

(** How [run_interview] leaves its loop: normally (the completion message
    follows), by an exception of the workflow, or because [input()] has
    nothing more to read; [still_running] when the fuel of the model is
    used up. *)
Inductive loop_exit :=
| completed (s : InterviewState)
| failed (e : exn) (s : InterviewState)
| input_ended (s : InterviewState)
| still_running (s : InterviewState).

Section RunInterview.

Variable settings : Settings.
Variable prompts : Round.t -> bool -> Templates.template Templates.prompt_field.
Variable EVALUATION_AGENT_SYSTEM_PROMPT :
  Templates.template Templates.evaluation_field.
Variable llm : Log -> string -> string.
Variable max_str_digits : nat.
Variable recursion_limit : nat.

(** The [while not state["is_complete"]] loop; printing is left out. *)
Fixpoint interview_loop (fuel : nat) (inputs : list string)
    (state : InterviewState) (log : Log) : loop_exit * Log :=
  if is_complete state then (completed state, log)
  else
    match fuel with
    | O => (still_running state, log)
    | S fuel' =>
        let state := set_last_answer None state in
        let (o, log') :=
          Workflow.run_step settings prompts EVALUATION_AGENT_SYSTEM_PROMPT
            llm max_str_digits recursion_limit state log in
        match o with
        | Raised e at_raise => (failed e at_raise, log')
        | Returned state =>
            if PyStr.truthy_opt (current_question state) then
              match read_answer inputs with
              | None => (input_ended state, log')
              | Some (answer, rest) =>
                  match Workflow.process_answer state answer with
                  | Raised e at_raise => (failed e at_raise, log')
                  | Returned state => interview_loop fuel' rest state log'
                  end
              end
            else interview_loop fuel' inputs state log'
        end
    end.

(** What one step amounts to when the model never replies with the empty
    text: the persona nodes in order up to the first round that is not
    exhausted, or all three and the evaluation. *)
Definition straight_step (s : InterviewState) (log : Log)
    : InterviewState * Log :=
  let p1 := question_prompt prompts Round.technical s in
  let s1 := asked Round.technical (llm log p1) s in
  let l1 := (log ++ [p1])%list in
  if technical_questions_asked s <? MAX_TECHNICAL_QUESTIONS settings
  then (s1, l1)
  else
    let p2 := question_prompt prompts Round.hr s1 in
    let s2 := asked Round.hr (llm l1 p2) s1 in
    let l2 := (l1 ++ [p2])%list in
    if hr_questions_asked s <? MAX_HR_QUESTIONS settings
    then (s2, l2)
    else
      let p3 := question_prompt prompts Round.manager s2 in
      let s3 := asked Round.manager (llm l2 p3) s2 in
      let l3 := (l2 ++ [p3])%list in
      if manager_questions_asked s <? MAX_MANAGER_QUESTIONS settings
      then (s3, l3)
      else
        let p4 := evaluation_prompt EVALUATION_AGENT_SYSTEM_PROMPT s3 in
        (evaluated
           (EvaluationAgent._parse_evaluation max_str_digits (llm l3 p4)) s3,
         (l3 ++ [p4])%list).

(** Where a returned step started in [s0] has come to rest, with what it
    left of the completion fields. *)
Definition rest_point (s0 s' : InterviewState) : Prop :=
  (current_agent s' = Agent.evaluation
   /\ is_complete s' = true /\ evaluation s' <> None
   /\ MAX_TECHNICAL_QUESTIONS settings <= technical_questions_asked s0
   /\ MAX_HR_QUESTIONS settings <= hr_questions_asked s0
   /\ MAX_MANAGER_QUESTIONS settings <= manager_questions_asked s0)
  \/ (is_complete s' = is_complete s0 /\ evaluation s' = evaluation s0
      /\ PyStr.truthy_opt (current_question s') = true
      /\ ((current_agent s' = current_agent s0
           /\ technical_questions_asked s0 < MAX_TECHNICAL_QUESTIONS settings)
          \/ (current_agent s' = Agent.hr
              /\ MAX_TECHNICAL_QUESTIONS settings <= technical_questions_asked s0
              /\ hr_questions_asked s0 < MAX_HR_QUESTIONS settings)
          \/ (current_agent s' = Agent.manager
              /\ MAX_TECHNICAL_QUESTIONS settings <= technical_questions_asked s0
              /\ MAX_HR_QUESTIONS settings <= hr_questions_asked s0
              /\ manager_questions_asked s0 < MAX_MANAGER_QUESTIONS settings))).

(** No counter is above its maximum. *)
Definition within_maxima (s : InterviewState) : Prop :=
  technical_questions_asked s <= MAX_TECHNICAL_QUESTIONS settings
  /\ hr_questions_asked s <= MAX_HR_QUESTIONS settings
  /\ manager_questions_asked s <= MAX_MANAGER_QUESTIONS settings.

(** A pending question belongs to a round that still has room. *)
Definition pending_below (s : InterviewState) : Prop :=
  PyStr.truthy_opt (current_question s) = true ->
  match current_agent s with
  | Agent.technical =>
      technical_questions_asked s < MAX_TECHNICAL_QUESTIONS settings
  | Agent.hr => hr_questions_asked s < MAX_HR_QUESTIONS settings
  | Agent.manager =>
      manager_questions_asked s < MAX_MANAGER_QUESTIONS settings
  | Agent.evaluation | Agent.complete => True
  end.

End RunInterview.

(** The pairs recorded for a round. *)
Definition pairs_of_round (r : Round.t) (s : InterviewState)
    : list QuestionAnswer :=
  filter (fun qa => EvaluationAgent.round_eqb (agent_type qa) r) (qa_pairs s).

(** Round by round, as many pairs as the counter says. *)
Definition rounds_match_counters (s : InterviewState) : Prop :=
  forall r : Round.t,
    Z.of_nat (List.length (pairs_of_round r s)) = questions_asked r s.

(** A completed interview carries its evaluation and the final tag. *)
Definition completion_ok (s : InterviewState) : Prop :=
  is_complete s = true ->
  current_agent s = Agent.evaluation /\ evaluation s <> None.

(** The fields set once by [create_initial_state]. *)
Definition same_candidate (a b : InterviewState) : Prop :=
  candidate_name a = candidate_name b /\ job_role a = job_role b
  /\ experience_level a = experience_level b
  /\ resume_text a = resume_text b.

(** What the graph never writes: the candidate, the counters, the pairs and
    [last_answer]. *)
Definition graph_keeps (a b : InterviewState) : Prop :=
  same_candidate a b /\ same_progress a b /\ last_answer a = last_answer b.

(** From one call to the next the transcript and the pairs only grow at
    their end and no counter drops. *)
Definition grows (a b : InterviewState) : Prop :=
  (exists ms, conversation_history b = (conversation_history a ++ ms)%list)
  /\ (exists qs, qa_pairs b = (qa_pairs a ++ qs)%list)
  /\ technical_questions_asked a <= technical_questions_asked b
  /\ hr_questions_asked a <= hr_questions_asked b
  /\ manager_questions_asked a <= manager_questions_asked b.

Definition node_rank (n : Workflow.node) : Z :=
  match n with
  | Workflow.n_technical => 0
  | Workflow.n_hr => 1
  | Workflow.n_manager => 2
  | Workflow.n_evaluation => 3
  end.

(** An item of a parsed list as the parser leaves it. *)
Definition trimmed (x : string) : Prop :=
  x <> EmptyString /\ PyStr.strip x = x.

(** What the resume section adds to a prompt besides the excerpt. *)
Definition resume_overhead : nat :=
  (String.length Templates.resume_header + 1
   + String.length Templates.continuation_marker
   + String.length Templates.resume_footer)%nat.

(** The three lists of a parsed evaluation hold trimmed items only. *)
Definition lists_trimmed (e : EvaluationDict) : Prop :=
  Forall trimmed (strengths e) /\ Forall trimmed (weaknesses e)
  /\ Forall trimmed (suggestions e).

(** The words that open a section. *)
Definition section_words : list string :=
  ["STRENGTHS:"; "WEAKNESSES:"; "AREAS FOR IMPROVEMENT:";
   "SUGGESTIONS:"; "RECOMMENDATIONS:"; "OVERALL FEEDBACK:"; "SUMMARY:"].

(** None of the section words occurs in a text, in any case. *)
Definition no_section_word (text : string) : Prop :=
  Forall (fun w => PyStr.contains w (PyStr.upper text) = false) section_words.

(** A model that replies with the empty text. *)
Definition silent_llm (log : Log) (prompt : string) : string := EmptyString.

(* ------------------------------------------------------------------ *)
(** * Properties *)

(** ** Recording an answer *)

Lemma same_progress_refl (s : InterviewState) : same_progress s s.
Proof. repeat split. Qed.

Lemma same_progress_trans (a b c : InterviewState) :
  same_progress a b -> same_progress b c -> same_progress a c.
Proof.
  unfold same_progress; intros (?&?&?&?) (?&?&?&?); repeat split; congruence.
Qed.

Lemma same_progress_invariant (a b : InterviewState) :
  same_progress a b -> pairs_match_counters a -> pairs_match_counters b.
Proof.
  unfold same_progress, pairs_match_counters; intros (Ht&Hh&Hm&Hq) H.
  rewrite <- Ht, <- Hh, <- Hm, <- Hq; exact H.
Qed.

Lemma length_snoc {A : Type} (l : list A) (x : A) :
  Z.of_nat (List.length (l ++ [x])) = Z.of_nat (List.length l) + 1.
Proof. rewrite List.length_app; simpl; lia. Qed.

(** With no question to pair the answer with, only the transcript and
    [last_answer] change. *)
Lemma process_answer_no_question (s : InterviewState) (text : string) :
  PyStr.truthy_opt (current_question s) = false ->
  Workflow.process_answer s text
  = Returned
      (set_last_answer (Some text)
         (set_current_question None
            (Workflow.append_message (mkMessage role_user text None) s))).
Proof.
  intros H; unfold Workflow.process_answer; simpl.
  destruct (current_question s) as [q|]; [simpl in H; rewrite H|]; reflexivity.
Qed.

(** The tag of the pair is checked when the pair is built: outside the three
    rounds nothing but the transcript is touched. *)
Lemma process_answer_rejected (s : InterviewState) (q text : string) :
  current_question s = Some q -> PyStr.truthy q = true ->
  Round.validate (current_agent s) = None ->
  Workflow.process_answer s text
  = Raised ValidationError
      (Workflow.append_message (mkMessage role_user text None) s).
Proof.
  intros Hq Ht Hv; unfold Workflow.process_answer; simpl.
  rewrite Hq, Ht, Hv; reflexivity.
Qed.

Lemma validate_to_agent (a : Agent.t) (r : Round.t) :
  Round.validate a = Some r <-> a = Round.to_agent r.
Proof. destruct a, r; simpl; split; congruence. Qed.

(** Whatever the state, an answer keeps the pairs and the counters in step. *)
Lemma process_answer_invariant (s : InterviewState) (text : string) :
  pairs_match_counters s ->
  pairs_match_counters (state_of (Workflow.process_answer s text)).
Proof.
  intros H; unfold Workflow.process_answer; simpl.
  destruct (current_question s) as [q|]; [|exact H].
  destruct (PyStr.truthy q); [|exact H].
  destruct (Round.validate (current_agent s)) as [[| |]|]; simpl;
    unfold pairs_match_counters in *; simpl; try rewrite length_snoc; lia.
Qed.

(** C10.  An answer submitted while no question is pending does not raise:
    the candidate message is appended to [conversation_history] and
    [last_answer] is set, while [qa_pairs] and the three counters stay as
    they were, so pairs and counters still match afterwards. *)
Theorem C10_answer_without_pending_question
    (s : InterviewState) (text : string) :
  current_question s = None ->
  exists s',
    Workflow.process_answer s text = Returned s'
    /\ conversation_history s'
       = (conversation_history s ++ [mkMessage role_user text None])%list
    /\ last_answer s' = Some text
    /\ current_question s' = None
    /\ qa_pairs s' = qa_pairs s
    /\ technical_questions_asked s' = technical_questions_asked s
    /\ hr_questions_asked s' = hr_questions_asked s
    /\ manager_questions_asked s' = manager_questions_asked s
    /\ (pairs_match_counters s -> pairs_match_counters s').
Proof.
  intros H. eexists; split.
  - apply process_answer_no_question; rewrite H; reflexivity.
  - simpl; repeat split; auto.
Qed.


(** ** One invocation of the graph *)

Section GraphProperties.

Variable settings : Settings.
Variable prompts : Round.t -> bool -> Templates.template Templates.prompt_field.
Variable EVALUATION_AGENT_SYSTEM_PROMPT :
  Templates.template Templates.evaluation_field.
Variable llm : Log -> string -> string.
Variable max_str_digits : nat.
Variable recursion_limit : nat.

Local Abbreviation run_node :=
  (Workflow.run_node prompts EVALUATION_AGENT_SYSTEM_PROMPT llm max_str_digits).
Local Abbreviation invoke_from :=
  (Workflow.invoke_from settings prompts EVALUATION_AGENT_SYSTEM_PROMPT llm
     max_str_digits).
Local Abbreviation run_step :=
  (Workflow.run_step settings prompts EVALUATION_AGENT_SYSTEM_PROMPT llm
     max_str_digits recursion_limit).
Local Abbreviation nodes_visited :=
  (Workflow.nodes_visited settings prompts EVALUATION_AGENT_SYSTEM_PROMPT llm
     max_str_digits recursion_limit).
Local Abbreviation run_calls :=
  (run_calls settings prompts EVALUATION_AGENT_SYSTEM_PROMPT llm
     max_str_digits recursion_limit).
Local Abbreviation question_prompt := (question_prompt prompts).
Local Abbreviation evaluation_prompt :=
  (evaluation_prompt EVALUATION_AGENT_SYSTEM_PROMPT).

Lemma persona_node_eq (n : Workflow.node) (r : Round.t)
    (s : InterviewState) (log : Log) :
  round_of_node n = Some r ->
  run_node n s log
  = (asked r (llm log (question_prompt r s)) s,
     (log ++ [question_prompt r s])%list).
Proof.
  destruct n; simpl; intros H; inversion H; subst; reflexivity.
Qed.

Lemma evaluation_node_eq (s : InterviewState) (log : Log) :
  run_node Workflow.n_evaluation s log
  = (evaluated
       (EvaluationAgent._parse_evaluation max_str_digits
          (llm log (evaluation_prompt s))) s,
     (log ++ [evaluation_prompt s])%list).
Proof. reflexivity. Qed.

Lemma run_node_progress (n : Workflow.node) (s : InterviewState) (log : Log) :
  same_progress s (fst (run_node n s log)).
Proof. destruct n; repeat split. Qed.

Lemma run_node_agent (n : Workflow.node) (s : InterviewState) (log : Log) :
  current_agent (fst (run_node n s log))
  = match n with
    | Workflow.n_technical => current_agent s
    | Workflow.n_hr => Agent.hr
    | Workflow.n_manager => Agent.manager
    | Workflow.n_evaluation => Agent.evaluation
    end.
Proof. destruct n; reflexivity. Qed.

(** One turn of the loop of [invoke_from]. *)
Lemma invoke_from_S (fuel : nat) (n : Workflow.node)
    (visited : list Workflow.node) (s : InterviewState) (log : Log) :
  invoke_from (S fuel) n visited s log
  = match Workflow.edge settings n (fst (run_node n s log)) with
    | Workflow.goto n' =>
        invoke_from fuel n' (visited ++ [n])%list
          (fst (run_node n s log)) (snd (run_node n s log))
    | Workflow.END =>
        (inl (fst (run_node n s log)), (visited ++ [n])%list,
         snd (run_node n s log))
    end.
Proof.
  simpl; unfold bind.
  destruct (run_node n s log) as [s1 log1]; simpl.
  destruct (Workflow.edge settings n s1); reflexivity.
Qed.

Lemma invoke_from_ended (s0 : InterviewState) :
  forall (fuel : nat) (n : Workflow.node) (visited : list Workflow.node)
         (s : InterviewState) (log : Log),
    same_progress s0 s -> entry_ok settings s0 n s ->
    match fst (fst (invoke_from fuel n visited s log)) with
    | inl s' => same_progress s0 s' /\ ended settings s0 s'
    | inr s' => same_progress s0 s'
    end.
Proof.
  induction fuel as [|fuel IH]; intros n visited s log Hp He; [exact Hp|].
  rewrite invoke_from_S.
  pose proof (run_node_progress n s log) as Hp1.
  pose proof (run_node_agent n s log) as Ha1.
  destruct (run_node n s log) as [s1 log1]; simpl in Hp1, Ha1 |- *.
  assert (Hp01 : same_progress s0 s1) by (eapply same_progress_trans; eauto).
  destruct Hp01 as (Ht & Hh & Hm & Hq).
  destruct n; simpl in He |- *;
    unfold Workflow._route_from_technical, Workflow._route_from_hr,
           Workflow._route_from_manager.
  - destruct (Z.leb_spec (MAX_TECHNICAL_QUESTIONS settings)
                         (technical_questions_asked s1)).
    + apply IH; [repeat split; assumption | simpl; lia].
    + destruct (PyStr.truthy_opt (current_question s1)).
      * simpl; split; [repeat split; assumption|].
        left; split; [congruence | lia].
      * apply IH; [repeat split; assumption | simpl; congruence].
  - destruct (Z.leb_spec (MAX_HR_QUESTIONS settings) (hr_questions_asked s1)).
    + apply IH; [repeat split; assumption | simpl; lia].
    + destruct (PyStr.truthy_opt (current_question s1)).
      * simpl; split; [repeat split; assumption|].
        right; left; repeat split; [assumption | lia | lia].
      * apply IH; [repeat split; assumption | simpl; lia].
  - destruct (Z.leb_spec (MAX_MANAGER_QUESTIONS settings)
                         (manager_questions_asked s1)).
    + apply IH; [repeat split; assumption | simpl; lia].
    + destruct (PyStr.truthy_opt (current_question s1)).
      * simpl; split; [repeat split; assumption|].
        right; right; left; repeat split; [assumption | lia | lia | lia].
      * apply IH; [repeat split; assumption | simpl; lia].
  - simpl; split; [repeat split; assumption|].
    right; right; right; repeat split; [assumption | lia | lia | lia].
Qed.

(** The state the caller holds after [run_step]: pairs and counters are
    those it passed in, and the tag is either the one it passed in or
    the one of the node where the graph came to rest. *)
Lemma run_step_state (s : InterviewState) (log : Log) :
  same_progress s (state_of (fst (run_step s log)))
  /\ (current_agent (state_of (fst (run_step s log))) = current_agent s
      \/ ended settings s (state_of (fst (run_step s log)))).
Proof.
  unfold Workflow.run_step, Workflow.graph_invoke, bind.
  pose proof (invoke_from_ended s recursion_limit Workflow.entry_point []
                s log (same_progress_refl s) eq_refl) as H.
  destruct (invoke_from _ _ _ _ _) as [[[s1|s1] v] log1]; simpl in *.
  - destruct H as [H1 H2]; split; [exact H1 | right; exact H2].
  - split; [|left; reflexivity].
    destruct H as (?&?&?&?); repeat split; auto.
Qed.

Lemma run_step_invariant (s : InterviewState) (log : Log) :
  pairs_match_counters s ->
  pairs_match_counters (state_of (fst (run_step s log))).
Proof.
  intros H; eapply same_progress_invariant; [|exact H].
  apply run_step_state.
Qed.

Lemma run_calls_invariant (calls : list call) :
  forall (s : InterviewState) (log : Log),
    pairs_match_counters s ->
    Forall pairs_match_counters (run_calls calls s log).
Proof.
  induction calls as [|[|text] rest IH]; intros s log H; simpl.
  - constructor.
  - unfold step.
    pose proof (run_step_invariant s log H) as H1.
    destruct (run_step s log) as [o log1]; simpl in *.
    constructor; [exact H1 | apply IH; exact H1].
  - destruct (current_question s); [|constructor].
    pose proof (process_answer_invariant s text H) as H1.
    constructor; [exact H1 | apply IH; exact H1].
Qed.

(** C2.  Along every sequence of [step]/[answer] calls that starts from
    [create_initial_state] and answers only while a question is pending,
    the number of recorded pairs equals the sum of the three counters
    after every call. *)
Theorem C2_pairs_match_counters_always
    (name job level : string) (resume : option string)
    (calls : list call) (log : Log) :
  Forall pairs_match_counters
    (run_calls calls (create_initial_state name job level resume) log).
Proof. apply run_calls_invariant; reflexivity. Qed.

(** ** The order of the rounds *)

Lemma process_answer_agent (s : InterviewState) (text : string) :
  current_agent (state_of (Workflow.process_answer s text)) = current_agent s.
Proof.
  unfold Workflow.process_answer; simpl.
  destruct (current_question s) as [q|]; [|reflexivity].
  destruct (PyStr.truthy q); [|reflexivity].
  destruct (Round.validate (current_agent s)) as [[| |]|]; reflexivity.
Qed.

Lemma process_answer_consistent (s : InterviewState) (text : string) :
  round_consistent settings s ->
  round_consistent settings (state_of (Workflow.process_answer s text)).
Proof.
  unfold Workflow.process_answer, round_consistent; simpl.
  destruct (current_question s) as [q|]; [|auto].
  destruct (PyStr.truthy q); [|auto].
  destruct (current_agent s) eqn:Ha; simpl; rewrite ?Ha; intros H;
    try exact H; try lia.
Qed.

(** One step from a consistent state: the state stays consistent, the
    rank of the tag does not drop, and it rises by at most one when the HR
    and manager rounds have at least one question each. *)
Lemma run_step_order (s : InterviewState) (log : Log) :
  round_consistent settings s ->
  round_consistent settings (state_of (fst (run_step s log)))
  /\ rank (current_agent s)
     <= rank (current_agent (state_of (fst (run_step s log))))
  /\ (1 <= MAX_HR_QUESTIONS settings -> 1 <= MAX_MANAGER_QUESTIONS settings ->
      rank (current_agent (state_of (fst (run_step s log))))
      <= rank (current_agent s) + 1).
Proof.
  intros Hc.
  destruct (run_step_state s log) as [(Ht & Hh & Hm & _) Hagent].
  set (s' := state_of (fst (run_step s log))) in *.
  unfold round_consistent in *.
  rewrite <- Ht, <- Hh, <- Hm.
  destruct Hagent as [Hsame | Hend].
  - rewrite Hsame; repeat split; [exact Hc | lia | lia].
  - unfold ended in Hend.
    destruct Hend as [(Ha & _) | [(Ha & ?) | [(Ha & ?) | (Ha & ?)]]];
      rewrite Ha.
    + repeat split; [exact Hc | lia | lia].
    + destruct (current_agent s); simpl; repeat split; try lia; tauto.
    + destruct (current_agent s); simpl; repeat split; try lia; tauto.
    + destruct (current_agent s); simpl; repeat split; try lia; tauto.
Qed.

Lemma run_calls_order (calls : list call) :
  forall (s : InterviewState) (log : Log),
    round_consistent settings s ->
    chain (fun a b => rank (current_agent a) <= rank (current_agent b))
          s (run_calls calls s log)
    /\ (1 <= MAX_HR_QUESTIONS settings -> 1 <= MAX_MANAGER_QUESTIONS settings ->
        chain (fun a b => rank (current_agent b) <= rank (current_agent a) + 1)
              s (run_calls calls s log)).
Proof.
  induction calls as [|[|text] rest IH]; intros s log Hc; simpl.
  - split; [exact I | intros _ _; exact I].
  - unfold step.
    destruct (run_step_order s log Hc) as (Hc1 & Hup & Hone).
    destruct (run_step s log) as [o log1]; simpl in *.
    destruct (IH (state_of o) log1 Hc1) as [IH1 IH2].
    split; [split; assumption | intros H1 H2; split; auto].
  - destruct (current_question s); [|split; [exact I | intros _ _; exact I]].
    pose proof (process_answer_consistent s text Hc) as Hc1.
    pose proof (process_answer_agent s text) as Ha.
    destruct (IH (state_of (Workflow.process_answer s text)) log Hc1)
      as [IH1 IH2].
    simpl; rewrite Ha.
    split; [split; [lia | assumption] | intros H1 H2; split; [lia | auto]].
Qed.

(** No node of the graph assigns the tag of the first round. *)
Lemma run_step_not_back_to_technical (s : InterviewState) (log : Log) :
  current_agent s <> Agent.technical ->
  current_agent (state_of (fst (run_step s log))) <> Agent.technical.
Proof.
  intros Hs.
  destruct (run_step_state s log) as [_ [Hsame | Hend]]; [congruence|].
  unfold ended in Hend.
  destruct Hend as [(Ha & _) | [(Ha & _) | [(Ha & _) | (Ha & _)]]];
    congruence.
Qed.

(** C5 (as amended).  Along every sequence of [step]/[answer] calls from
    [create_initial_state] that answers only while a question is pending,
    the position of [current_agent] in the order technical, hr, manager,
    evaluation never decreases; a step never sets a tag other than
    technical back to technical; and when the HR and manager maxima are at
    least 1, the position rises by at most one per call (no round is
    passed over). *)
Theorem C5_round_order_monotone
    (name job level : string) (resume : option string)
    (calls : list call) (log : Log) :
  chain (fun a b => rank (current_agent a) <= rank (current_agent b))
        (create_initial_state name job level resume)
        (run_calls calls (create_initial_state name job level resume) log)
  /\ (forall (s : InterviewState) (l : Log),
        current_agent s <> Agent.technical ->
        current_agent (state_of (fst (run_step s l))) <> Agent.technical)
  /\ (1 <= MAX_HR_QUESTIONS settings -> 1 <= MAX_MANAGER_QUESTIONS settings ->
      chain (fun a b => rank (current_agent b) <= rank (current_agent a) + 1)
            (create_initial_state name job level resume)
            (run_calls calls (create_initial_state name job level resume)
               log)).
Proof.
  assert (H0 : round_consistent settings (create_initial_state name job level resume))
    by (split; reflexivity).
  destruct (run_calls_order calls _ log H0) as [Hmono Hone].
  split; [exact Hmono | split; [|exact Hone]].
  intros s l; apply run_step_not_back_to_technical.
Qed.

(** ** What one step executes *)

Lemma asked_progress (r : Round.t) (q : string) (s : InterviewState) :
  same_progress s (asked r q s).
Proof. destruct r; repeat split. Qed.

Lemma asked_question (r : Round.t) (q : string) (s : InterviewState) :
  current_question (asked r q s) = Some q.
Proof. destruct r; reflexivity. Qed.

Lemma edge_technical_next (s : InterviewState) :
  MAX_TECHNICAL_QUESTIONS settings <= technical_questions_asked s ->
  Workflow.edge settings Workflow.n_technical s = Workflow.goto Workflow.n_hr.
Proof.
  intros H; simpl; unfold Workflow._route_from_technical.
  destruct (Z.leb_spec (MAX_TECHNICAL_QUESTIONS settings)
                       (technical_questions_asked s)); [reflexivity | lia].
Qed.

Lemma edge_hr_next (s : InterviewState) :
  MAX_HR_QUESTIONS settings <= hr_questions_asked s ->
  Workflow.edge settings Workflow.n_hr s = Workflow.goto Workflow.n_manager.
Proof.
  intros H; simpl; unfold Workflow._route_from_hr.
  destruct (Z.leb_spec (MAX_HR_QUESTIONS settings) (hr_questions_asked s));
    [reflexivity | lia].
Qed.

Lemma edge_manager_next (s : InterviewState) :
  MAX_MANAGER_QUESTIONS settings <= manager_questions_asked s ->
  Workflow.edge settings Workflow.n_manager s
  = Workflow.goto Workflow.n_evaluation.
Proof.
  intros H; simpl; unfold Workflow._route_from_manager.
  destruct (Z.leb_spec (MAX_MANAGER_QUESTIONS settings)
                       (manager_questions_asked s)); [reflexivity | lia].
Qed.

Lemma truthy_nonempty (q : string) : q <> EmptyString -> PyStr.truthy q = true.
Proof. destruct q; [congruence | reflexivity]. Qed.

Lemma edge_hr_end (s : InterviewState) (q : string) :
  hr_questions_asked s < MAX_HR_QUESTIONS settings ->
  current_question s = Some q -> q <> EmptyString ->
  Workflow.edge settings Workflow.n_hr s = Workflow.END.
Proof.
  intros H Hq Hne; simpl; unfold Workflow._route_from_hr.
  destruct (Z.leb_spec (MAX_HR_QUESTIONS settings) (hr_questions_asked s));
    [lia|].
  rewrite Hq; simpl; rewrite (truthy_nonempty q Hne); reflexivity.
Qed.

Lemma edge_manager_end (s : InterviewState) (q : string) :
  manager_questions_asked s < MAX_MANAGER_QUESTIONS settings ->
  current_question s = Some q -> q <> EmptyString ->
  Workflow.edge settings Workflow.n_manager s = Workflow.END.
Proof.
  intros H Hq Hne; simpl; unfold Workflow._route_from_manager.
  destruct (Z.leb_spec (MAX_MANAGER_QUESTIONS settings)
                       (manager_questions_asked s)); [lia|].
  rewrite Hq; simpl; rewrite (truthy_nonempty q Hne); reflexivity.
Qed.

(** One turn of the loop at a persona node. *)
Lemma invoke_from_persona (fuel : nat) (n : Workflow.node) (r : Round.t)
    (visited : list Workflow.node) (s : InterviewState) (log : Log) :
  round_of_node n = Some r ->
  invoke_from (S fuel) n visited s log
  = match Workflow.edge settings n
            (asked r (llm log (question_prompt r s)) s) with
    | Workflow.goto n' =>
        invoke_from fuel n' (visited ++ [n])%list
          (asked r (llm log (question_prompt r s)) s)
          (log ++ [question_prompt r s])%list
    | Workflow.END =>
        (inl (asked r (llm log (question_prompt r s)) s),
         (visited ++ [n])%list, (log ++ [question_prompt r s])%list)
    end.
Proof.
  intros H; rewrite invoke_from_S, (persona_node_eq n r s log H); reflexivity.
Qed.

(** With the technical and HR rounds exhausted the graph runs through its
    first three nodes, asking each persona agent once. *)
Lemma invoke_three_personas (fuel : nat) (s : InterviewState) (log : Log) :
  MAX_TECHNICAL_QUESTIONS settings <= technical_questions_asked s ->
  MAX_HR_QUESTIONS settings <= hr_questions_asked s ->
  let p1 := question_prompt Round.technical s in
  let s1 := asked Round.technical (llm log p1) s in
  let l1 := (log ++ [p1])%list in
  let p2 := question_prompt Round.hr s1 in
  let s2 := asked Round.hr (llm l1 p2) s1 in
  let l2 := (l1 ++ [p2])%list in
  invoke_from (S (S fuel)) Workflow.n_technical [] s log
  = invoke_from fuel Workflow.n_manager [Workflow.n_technical; Workflow.n_hr]
      s2 l2.
Proof.
  intros Ht Hh p1 s1 l1 p2 s2 l2.
  rewrite (invoke_from_persona _ _ Round.technical) by reflexivity.
  fold p1; fold s1; fold l1.
  rewrite edge_technical_next by exact Ht.
  rewrite (invoke_from_persona _ _ Round.hr) by reflexivity.
  fold p2; fold s2; fold l2.
  rewrite edge_hr_next by exact Hh.
  reflexivity.
Qed.

(** All three rounds exhausted: the graph runs through its four nodes and
    ends in the evaluation node. *)
Lemma run_step_all_exhausted (s : InterviewState) (log : Log) :
  (4 <= recursion_limit)%nat ->
  MAX_TECHNICAL_QUESTIONS settings <= technical_questions_asked s ->
  MAX_HR_QUESTIONS settings <= hr_questions_asked s ->
  MAX_MANAGER_QUESTIONS settings <= manager_questions_asked s ->
  let p1 := question_prompt Round.technical s in
  let s1 := asked Round.technical (llm log p1) s in
  let l1 := (log ++ [p1])%list in
  let p2 := question_prompt Round.hr s1 in
  let s2 := asked Round.hr (llm l1 p2) s1 in
  let l2 := (l1 ++ [p2])%list in
  let p3 := question_prompt Round.manager s2 in
  let s3 := asked Round.manager (llm l2 p3) s2 in
  let l3 := (l2 ++ [p3])%list in
  let p4 := evaluation_prompt s3 in
  let e := EvaluationAgent._parse_evaluation max_str_digits (llm l3 p4) in
  run_step s log = (Returned (evaluated e s3), (l3 ++ [p4])%list)
  /\ nodes_visited s log
     = [Workflow.n_technical; Workflow.n_hr; Workflow.n_manager;
        Workflow.n_evaluation].
Proof.
  intros Hfuel Ht Hh Hm p1 s1 l1 p2 s2 l2 p3 s3 l3 p4 e.
  destruct recursion_limit as [|[|[|[|fuel]]]]; try lia.
  unfold Workflow.nodes_visited, Workflow.run_step, Workflow.graph_invoke,
         Workflow.entry_point, bind.
  rewrite (invoke_three_personas _ s log Ht Hh).
  fold p1; fold s1; fold l1; fold p2; fold s2; fold l2.
  rewrite (invoke_from_persona _ _ Round.manager) by reflexivity.
  fold p3; fold s3; fold l3.
  rewrite edge_manager_next by exact Hm.
  rewrite invoke_from_S, evaluation_node_eq.
  split; reflexivity.
Qed.



(** ** A step while a question is pending *)

Lemma run_node_extends (n : Workflow.node) (s : InterviewState) (log : Log) :
  exists (p : string) (ms : list Message),
    snd (run_node n s log) = (log ++ [p])%list
    /\ conversation_history (fst (run_node n s log))
       = (conversation_history s ++ ms)%list.
Proof.
  destruct n;
    [exists (question_prompt Round.technical s)
    |exists (question_prompt Round.hr s)
    |exists (question_prompt Round.manager s)
    |exists (evaluation_prompt s)];
    try (eexists; split; reflexivity).
  exists []; split; [reflexivity | simpl; rewrite List.app_nil_r; reflexivity].
Qed.

(** The graph only ever appends to the log and to the transcript. *)
Lemma invoke_from_extends :
  forall (fuel : nat) (n : Workflow.node) (visited : list Workflow.node)
         (s : InterviewState) (log : Log),
  exists (ps : Log) (ms : list Message),
    snd (invoke_from fuel n visited s log) = (log ++ ps)%list
    /\ conversation_history
         (match fst (fst (invoke_from fuel n visited s log)) with
          | inl s' => s'
          | inr s' => s'
          end)
       = (conversation_history s ++ ms)%list.
Proof.
  induction fuel as [|fuel IH]; intros n visited s log.
  - exists [], []; simpl; rewrite !List.app_nil_r; split; reflexivity.
  - rewrite invoke_from_S.
    destruct (run_node_extends n s log) as (p & ms & Hl & Hh).
    destruct (Workflow.edge settings n (fst (run_node n s log))) as [n'|].
    + destruct (IH n' (visited ++ [n])%list (fst (run_node n s log))
                  (snd (run_node n s log))) as (ps & ms' & Hl' & Hh').
      exists (p :: ps), (ms ++ ms')%list.
      rewrite Hl', Hh', Hl, Hh, <- !List.app_assoc; split; reflexivity.
    + exists [p], ms; simpl; split; assumption.
Qed.


End GraphProperties.

(* ------------------------------------------------------------------ *)
(** ** Strings *)

Lemma str_app_nil_r (s : string) : s ++ EmptyString = s.
Proof. induction s as [|c s IH]; simpl; [|rewrite IH]; reflexivity. Qed.

Lemma str_app_assoc (a b c : string) : (a ++ b) ++ c = a ++ b ++ c.
Proof. induction a as [|x a IH]; simpl; [|rewrite IH]; reflexivity. Qed.

Lemma upper_app (a b : string) :
  PyStr.upper (a ++ b) = PyStr.upper a ++ PyStr.upper b.
Proof. induction a as [|x a IH]; simpl; [|rewrite IH]; reflexivity. Qed.

Lemma prefix_nil (h : string) : String.prefix EmptyString h = true.
Proof. destruct h; reflexivity. Qed.

Lemma prefix_app_r (n : string) :
  forall h y, String.prefix n h = true -> String.prefix n (h ++ y) = true.
Proof.
  induction n as [|c n IH]; intros h y H; [apply prefix_nil|].
  destruct h as [|d h]; simpl in *; [discriminate|].
  destruct (ascii_dec c d); [apply IH; exact H | discriminate].
Qed.

Lemma contains_app_l (n x h : string) :
  PyStr.contains n h = true -> PyStr.contains n (x ++ h) = true.
Proof.
  intros H; induction x as [|c x IH]; [exact H|].
  simpl; rewrite IH; apply orb_true_r.
Qed.

Lemma contains_app_r (n : string) :
  forall h y, PyStr.contains n h = true -> PyStr.contains n (h ++ y) = true.
Proof.
  induction h as [|c h IH]; intros y H.
  - simpl in H; rewrite orb_false_r in H.
    destruct n; [|discriminate].
    destruct y; reflexivity.
  - change (String.prefix n (String c h) || PyStr.contains n h = true) in H.
    change (String.prefix n (String c h ++ y)
            || PyStr.contains n (h ++ y) = true).
    apply orb_true_iff in H; destruct H as [H|H].
    + rewrite (prefix_app_r n (String c h) y H); reflexivity.
    + rewrite (IH y H); apply orb_true_r.
Qed.

(** A needle found in a piece of a text is found in the text. *)
Lemma contains_inside (n x l y : string) :
  PyStr.contains n (PyStr.upper l) = true ->
  PyStr.contains n (PyStr.upper (x ++ l ++ y)) = true.
Proof.
  intros H; rewrite !upper_app.
  apply contains_app_l, contains_app_r, H.
Qed.

Lemma contains_of_prefix (n h : string) :
  String.prefix n h = true -> PyStr.contains n h = true.
Proof.
  intros H; destruct h; cbn [PyStr.contains]; rewrite H; reflexivity.
Qed.

Lemma prefix_contains_tail (a b : string) :
  forall h, String.prefix (a ++ b) h = true -> PyStr.contains b h = true.
Proof.
  induction a as [|c a IH]; intros h H.
  - apply contains_of_prefix; exact H.
  - destruct h as [|d h]; simpl in H; [discriminate|].
    destruct (ascii_dec c d); [|discriminate].
    change (String.prefix b (String d h) || PyStr.contains b h = true).
    rewrite (IH h H); apply orb_true_r.
Qed.

Lemma contains_tail (a b : string) :
  forall h, PyStr.contains (a ++ b) h = true -> PyStr.contains b h = true.
Proof.
  induction h as [|c h IH]; intros H.
  - simpl in H; rewrite orb_false_r in H.
    apply prefix_contains_tail with (a := a); exact H.
  - change (String.prefix (a ++ b) (String c h)
            || PyStr.contains (a ++ b) h = true) in H.
    apply orb_true_iff in H; destruct H as [H|H].
    + apply prefix_contains_tail with (a := a); exact H.
    + change (String.prefix b (String c h) || PyStr.contains b h = true).
      rewrite (IH H); apply orb_true_r.
Qed.

Lemma lstrip_suffix (p : ascii -> bool) (s : string) :
  exists x, s = x ++ PyStr.lstrip_where p s.
Proof.
  induction s as [|c s [x IH]]; [exists EmptyString; reflexivity|].
  simpl; destruct (p c).
  - exists (String c x); simpl; rewrite <- IH; reflexivity.
  - exists EmptyString; reflexivity.
Qed.

Lemma rstrip_prefix (p : ascii -> bool) (s : string) :
  exists y, s = PyStr.rstrip_where p s ++ y.
Proof.
  induction s as [|c s [y IH]]; [exists EmptyString; reflexivity|].
  simpl; destruct (PyStr.rstrip_where p s) as [|d r] eqn:E.
  - destruct (p c).
    + exists (String c s); reflexivity.
    + exists y; simpl; rewrite IH; reflexivity.
  - exists y; simpl; rewrite IH; reflexivity.
Qed.

Lemma strip_inside (s : string) :
  exists x y, s = x ++ PyStr.strip s ++ y.
Proof.
  unfold PyStr.strip.
  destruct (rstrip_prefix PyStr.is_space s) as [y Hy].
  destruct (lstrip_suffix PyStr.is_space
              (PyStr.rstrip_where PyStr.is_space s)) as [x Hx].
  exists x, y. rewrite <- str_app_assoc, <- Hx; exact Hy.
Qed.

Lemma split_lines_head (s : string) :
  forall h t, PyStr.split_lines s = h :: t -> exists y, s = h ++ y.
Proof.
  induction s as [|c s IH]; intros h t H; simpl in H.
  - inversion H; exists EmptyString; reflexivity.
  - destruct (Ascii.eqb c PyStr.newline).
    + inversion H; exists (String c s); reflexivity.
    + destruct (PyStr.split_lines s) as [|h' t'] eqn:E.
      * inversion H; subst.
        destruct s; simpl in E; [discriminate|].
        destruct (Ascii.eqb a PyStr.newline); [discriminate|].
        destruct (PyStr.split_lines s); discriminate.
      * inversion H; subst.
        destruct (IH _ _ eq_refl) as [y Hy].
        exists y; simpl; rewrite <- Hy; reflexivity.
Qed.

Lemma split_lines_inside (s : string) :
  forall l, In l (PyStr.split_lines s) -> exists x y, s = x ++ l ++ y.
Proof.
  induction s as [|c s IH]; intros l H; simpl in H.
  - destruct H as [H|[]]; subst; exists EmptyString, EmptyString; reflexivity.
  - destruct (Ascii.eqb c PyStr.newline).
    + destruct H as [H|H].
      * subst; exists EmptyString, (String c s); reflexivity.
      * destruct (IH l H) as (x & y & E).
        exists (String c x), y; simpl; rewrite <- E; reflexivity.
    + destruct (PyStr.split_lines s) as [|h t] eqn:E.
      * destruct H as [H|[]]; subst.
        exists EmptyString, s; reflexivity.
      * destruct H as [H|H].
        -- subst. destruct (split_lines_head s h t E) as [y Hy].
           exists EmptyString, y; simpl; rewrite <- Hy; reflexivity.
        -- destruct (IH l (or_intror H)) as (x & y & E').
           exists (String c x), y; simpl; rewrite <- E'; reflexivity.
Qed.

Lemma substring_all (s : string) :
  forall n, (String.length s <= n)%nat -> String.substring 0 n s = s.
Proof.
  induction s as [|c s IH]; intros [|n] H; simpl in *; try reflexivity;
    [lia | rewrite IH by lia; reflexivity].
Qed.

Lemma substring_length (s : string) :
  forall n, (n <= String.length s)%nat ->
            String.length (String.substring 0 n s) = n.
Proof.
  induction s as [|c s IH]; intros [|n] H; simpl in *; try reflexivity;
    [lia | rewrite IH by lia; reflexivity].
Qed.

(* ------------------------------------------------------------------ *)
(** ** The evaluation parser *)

Section ParserProperties.

Variable max_str_digits : nat.

Local Abbreviation extract_score := (EvaluationAgent.extract_score max_str_digits).
Local Abbreviation parse_line := (EvaluationAgent.parse_line max_str_digits).
Local Abbreviation parse_lines := (EvaluationAgent.parse_lines max_str_digits).
Local Abbreviation _parse_evaluation :=
  (EvaluationAgent._parse_evaluation max_str_digits).

Lemma extract_score_bounds (line : string) (n : Z) :
  extract_score line = Some n -> 0 <= n <= 100.
Proof.
  unfold EvaluationAgent.extract_score.
  destruct (PyStr.search_digits line) as [d|]; [|discriminate].
  destruct (PyStr.int_of_digits max_str_digits d); [|discriminate].
  intros H; inversion H; lia.
Qed.

Lemma add_content_score (k : EvaluationAgent.section_key) (line : string)
    (e : EvaluationDict) :
  score (EvaluationAgent.add_content k line e) = score e.
Proof. destruct k; reflexivity. Qed.

(** A line that carries a score sets it; any other line leaves it. *)
Lemma parse_line_score (st : EvaluationAgent.parse_state) (raw : string) :
  score (EvaluationAgent.acc (parse_line st raw))
  = if EvaluationAgent.is_score_line (PyStr.strip raw)
    then match extract_score (PyStr.strip raw) with
         | Some n => n
         | None => score (EvaluationAgent.acc st)
         end
    else score (EvaluationAgent.acc st).
Proof.
  unfold EvaluationAgent.parse_line.
  destruct (EvaluationAgent.is_score_line (PyStr.strip raw)).
  - destruct (extract_score (PyStr.strip raw)); reflexivity.
  - repeat match goal with
           | |- context [if ?b then _ else _] => destruct b
           | |- context [match EvaluationAgent.current_section st with
                         | _ => _ end] =>
               destruct (EvaluationAgent.current_section st)
           end; simpl; rewrite ?add_content_score; reflexivity.
Qed.

Lemma parse_line_bounds (st : EvaluationAgent.parse_state) (raw : string) :
  0 <= score (EvaluationAgent.acc st) <= 100 ->
  0 <= score (EvaluationAgent.acc (parse_line st raw)) <= 100.
Proof.
  intros H; rewrite parse_line_score.
  destruct (EvaluationAgent.is_score_line (PyStr.strip raw)); [|exact H].
  destruct (extract_score (PyStr.strip raw)) as [n|] eqn:E; [|exact H].
  exact (extract_score_bounds _ _ E).
Qed.

Lemma fold_parse_bounds (lines : list string) :
  forall st, 0 <= score (EvaluationAgent.acc st) <= 100 ->
    0 <= score (EvaluationAgent.acc (fold_left parse_line lines st)) <= 100.
Proof.
  induction lines as [|l rest IH]; intros st H; [exact H|].
  simpl; apply IH, parse_line_bounds, H.
Qed.

Lemma fold_parse_no_score (lines : list string) :
  Forall (fun l => EvaluationAgent.is_score_line (PyStr.strip l) = false)
         lines ->
  forall st, score (EvaluationAgent.acc (fold_left parse_line lines st))
             = score (EvaluationAgent.acc st).
Proof.
  induction 1 as [|l rest Hl _ IH]; intros st; [reflexivity|].
  simpl; rewrite IH, parse_line_score, Hl; reflexivity.
Qed.

(** The fallback touches the feedback text only. *)
Lemma parse_evaluation_score (text : string) :
  score (_parse_evaluation text)
  = score (EvaluationAgent.acc
             (parse_lines (PyStr.split_lines (PyStr.strip text)))).
Proof.
  unfold EvaluationAgent._parse_evaluation.
  destruct (_ && _); reflexivity.
Qed.

Lemma digit_value_nonneg (c : ascii) :
  PyStr.is_digit c = true -> 0 <= PyStr.digit_value c.
Proof.
  unfold PyStr.is_digit, PyStr.digit_value; intros Hd.
  apply andb_true_iff in Hd; destruct Hd as [Hd _].
  apply Nat.leb_le in Hd; lia.
Qed.

Lemma take_digits_nonneg (s : string) :
  forall a, 0 <= a -> 0 <= PyStr.int_acc a (PyStr.take_digits s).
Proof.
  induction s as [|c s IH]; intros a Ha; [exact Ha|].
  cbn [PyStr.take_digits].
  destruct (PyStr.is_digit c) eqn:Hd; [|exact Ha].
  cbn [PyStr.int_acc]; apply IH.
  pose proof (digit_value_nonneg c Hd); lia.
Qed.

(** The integer read off a line is that of a run of digits: it has no
    sign. *)
Lemma search_digits_nonneg (line d : string) (n : Z) :
  PyStr.search_digits line = Some d ->
  PyStr.int_of_digits max_str_digits d = Some n -> 0 <= n.
Proof.
  intros Hs Hi.
  assert (Hd : exists s, d = PyStr.take_digits s).
  { revert Hs; induction line as [|c line IH]; simpl; [discriminate|].
    destruct (PyStr.is_digit c) eqn:E.
    - intros H; inversion H. exists (String c line); simpl; rewrite E.
      reflexivity.
    - exact IH. }
  destruct Hd as [s ->].
  unfold PyStr.int_of_digits in Hi.
  destruct (_ && _) in Hi; [discriminate|].
  inversion Hi; apply take_digits_nonneg; lia.
Qed.

Lemma score_line_iff (line : string) :
  EvaluationAgent.is_score_line line
  = PyStr.contains "SCORE:" (PyStr.upper line).
Proof.
  unfold EvaluationAgent.is_score_line.
  destruct (PyStr.contains "SCORE:" (PyStr.upper line)) eqn:E; [reflexivity|].
  destruct (PyStr.contains "OVERALL SCORE:" (PyStr.upper line)) eqn:E';
    [|reflexivity].
  rewrite (contains_tail "OVERALL " "SCORE:" _ E') in E; discriminate.
Qed.

(** A text that nowhere contains the word has no score line. *)
Lemma no_score_lines (text : string) :
  PyStr.contains "SCORE:" (PyStr.upper text) = false ->
  Forall (fun l => EvaluationAgent.is_score_line (PyStr.strip l) = false)
         (PyStr.split_lines (PyStr.strip text)).
Proof.
  intros H; apply Forall_forall; intros l Hl.
  rewrite score_line_iff.
  destruct (PyStr.contains "SCORE:" (PyStr.upper (PyStr.strip l))) eqn:E;
    [|reflexivity].
  destruct (strip_inside l) as (x1 & y1 & E1).
  destruct (split_lines_inside _ l Hl) as (x2 & y2 & E2).
  destruct (strip_inside text) as (x3 & y3 & E3).
  pose proof (contains_inside _ x1 _ y1 E) as C1; rewrite <- E1 in C1.
  pose proof (contains_inside _ x2 _ y2 C1) as C2; rewrite <- E2 in C2.
  pose proof (contains_inside _ x3 _ y3 C2) as C3; rewrite <- E3 in C3.
  congruence.
Qed.



End ParserProperties.

(* ------------------------------------------------------------------ *)
(** ** The resume excerpt of a prompt *)


(* ------------------------------------------------------------------ *)
(** ** The properties on concrete interviews *)

Lemma demo_llm_nonempty (l : Log) (p : string) : demo_llm l p <> EmptyString.
Proof.
  unfold demo_llm; destruct (String.prefix "Evaluate: " p); discriminate.
Qed.







(** With no HR question configured the tag goes from [technical] to
    [manager] in one step. *)
Lemma C5_zero_maximum_skips_round :
  map current_agent (demo_run no_hr_round [Step; Answer "a"; Step])
  = [Agent.technical; Agent.technical; Agent.manager].
Proof. reflexivity. Qed.

Lemma C5_round_order_witness :
  chain (fun a b => rank (current_agent b) <= rank (current_agent a) + 1)
        demo_state end_to_end.
Proof.
  apply (C5_round_order_monotone one_each demo_prompts
           demo_evaluation_prompt demo_llm PyStr.default_max_str_digits 25
           "Ada" "Engineer" "Senior" None
           [Step; Answer "x"; Step; Answer "y"; Step; Answer "z"; Step] []);
    vm_compute; discriminate.
Defined.








Lemma C10_answer_without_question_witness :
  exists s',
    Workflow.process_answer demo_state "hello" = Returned s'
    /\ conversation_history s'
       = (conversation_history demo_state
          ++ [mkMessage role_user "hello" None])%list
    /\ last_answer s' = Some "hello"
    /\ current_question s' = None
    /\ qa_pairs s' = qa_pairs demo_state
    /\ technical_questions_asked s' = technical_questions_asked demo_state
    /\ hr_questions_asked s' = hr_questions_asked demo_state
    /\ manager_questions_asked s' = manager_questions_asked demo_state
    /\ (pairs_match_counters demo_state -> pairs_match_counters s').
Proof.
  exact (C10_answer_without_pending_question demo_state "hello" eq_refl).
Defined.

(* ------------------------------------------------------------------ *)
(** * Further properties of the workflow *)

Lemma graph_keeps_refl (s : InterviewState) : graph_keeps s s.
Proof. repeat split. Qed.

Lemma graph_keeps_trans (a b c : InterviewState) :
  graph_keeps a b -> graph_keeps b c -> graph_keeps a c.
Proof.
  unfold graph_keeps, same_candidate, same_progress.
  intros ((?&?&?&?)&(?&?&?&?)&?) ((?&?&?&?)&(?&?&?&?)&?).
  repeat split; congruence.
Qed.

Section StepProperties.

Variable settings : Settings.
Variable prompts : Round.t -> bool -> Templates.template Templates.prompt_field.
Variable EVALUATION_AGENT_SYSTEM_PROMPT :
  Templates.template Templates.evaluation_field.
Variable llm : Log -> string -> string.
Variable max_str_digits : nat.
Variable recursion_limit : nat.

Local Abbreviation run_node :=
  (Workflow.run_node prompts EVALUATION_AGENT_SYSTEM_PROMPT llm max_str_digits).
Local Abbreviation invoke_from :=
  (Workflow.invoke_from settings prompts EVALUATION_AGENT_SYSTEM_PROMPT llm
     max_str_digits).
Local Abbreviation run_step :=
  (Workflow.run_step settings prompts EVALUATION_AGENT_SYSTEM_PROMPT llm
     max_str_digits recursion_limit).
Local Abbreviation nodes_visited :=
  (Workflow.nodes_visited settings prompts EVALUATION_AGENT_SYSTEM_PROMPT llm
     max_str_digits recursion_limit).
Local Abbreviation run_calls :=
  (run_calls settings prompts EVALUATION_AGENT_SYSTEM_PROMPT llm
     max_str_digits recursion_limit).
Local Abbreviation question_prompt := (question_prompt prompts).
Local Abbreviation evaluation_prompt :=
  (evaluation_prompt EVALUATION_AGENT_SYSTEM_PROMPT).
Local Abbreviation closed_step :=
  (straight_step settings prompts EVALUATION_AGENT_SYSTEM_PROMPT llm
     max_str_digits).
Local Abbreviation main_loop :=
  (interview_loop settings prompts EVALUATION_AGENT_SYSTEM_PROMPT llm
     max_str_digits recursion_limit).
Local Abbreviation invoke_S :=
  (invoke_from_S settings prompts EVALUATION_AGENT_SYSTEM_PROMPT llm
     max_str_digits).

Lemma run_node_keeps (n : Workflow.node) (s : InterviewState) (log : Log) :
  graph_keeps s (fst (run_node n s log)).
Proof. destruct n; repeat split. Qed.

Lemma run_node_completion (n : Workflow.node) (s : InterviewState)
    (log : Log) :
  match n with
  | Workflow.n_evaluation =>
      is_complete (fst (run_node n s log)) = true
      /\ evaluation (fst (run_node n s log)) <> None
  | _ =>
      is_complete (fst (run_node n s log)) = is_complete s
      /\ evaluation (fst (run_node n s log)) = evaluation s
  end.
Proof. destruct n; simpl; split; try reflexivity; discriminate. Qed.

Lemma invoke_from_keeps :
  forall (fuel : nat) (n : Workflow.node) (visited : list Workflow.node)
         (s : InterviewState) (log : Log),
    graph_keeps s
      (match fst (fst (invoke_from fuel n visited s log)) with
       | inl s' => s'
       | inr s' => s'
       end).
Proof.
  induction fuel as [|fuel IH]; intros n visited s log;
    [apply graph_keeps_refl|].
  rewrite invoke_S.
  pose proof (run_node_keeps n s log) as H1.
  destruct (Workflow.edge settings n (fst (run_node n s log))) as [n'|];
    [|exact H1].
  eapply graph_keeps_trans; [exact H1 | apply IH].
Qed.

(** A returned invocation stops either behind the evaluation node or at a
    persona node that left a non-empty question. *)
Lemma invoke_from_rest (s0 : InterviewState) :
  forall (fuel : nat) (n : Workflow.node) (visited : list Workflow.node)
         (s : InterviewState) (log : Log),
    same_progress s0 s -> entry_ok settings s0 n s ->
    is_complete s = is_complete s0 -> evaluation s = evaluation s0 ->
    match fst (fst (invoke_from fuel n visited s log)) with
    | inl s' => rest_point settings s0 s'
    | inr _ => True
    end.
Proof.
  induction fuel as [|fuel IH]; intros n visited s log Hp He Hc Hv;
    [exact I|].
  rewrite invoke_S.
  pose proof (run_node_progress prompts EVALUATION_AGENT_SYSTEM_PROMPT llm
                max_str_digits n s log) as Hp1.
  pose proof (run_node_agent prompts EVALUATION_AGENT_SYSTEM_PROMPT llm
                max_str_digits n s log) as Ha1.
  pose proof (run_node_completion n s log) as Hc1.
  destruct (run_node n s log) as [s1 log1]; simpl in Hp1, Ha1, Hc1 |- *.
  assert (Hp01 : same_progress s0 s1) by (eapply same_progress_trans; eauto).
  pose proof Hp01 as (Ht & Hh & Hm & Hq).
  destruct n; simpl in He |- *;
    unfold Workflow._route_from_technical, Workflow._route_from_hr,
           Workflow._route_from_manager;
    try destruct Hc1 as [Hc1 Hv1].
  - destruct (Z.leb_spec (MAX_TECHNICAL_QUESTIONS settings)
                         (technical_questions_asked s1)).
    + apply IH; [assumption | simpl; lia | congruence | congruence].
    + destruct (PyStr.truthy_opt (current_question s1)) eqn:Eq.
      * simpl; right; repeat split; try congruence.
        left; split; [congruence | lia].
      * apply IH; [assumption | simpl; congruence | congruence | congruence].
  - destruct (Z.leb_spec (MAX_HR_QUESTIONS settings) (hr_questions_asked s1)).
    + apply IH; [assumption | simpl; lia | congruence | congruence].
    + destruct (PyStr.truthy_opt (current_question s1)) eqn:Eq.
      * simpl; right; repeat split; try congruence.
        right; left; repeat split; [assumption | lia | lia].
      * apply IH; [assumption | simpl; lia | congruence | congruence].
  - destruct (Z.leb_spec (MAX_MANAGER_QUESTIONS settings)
                         (manager_questions_asked s1)).
    + apply IH; [assumption | simpl; lia | congruence | congruence].
    + destruct (PyStr.truthy_opt (current_question s1)) eqn:Eq.
      * simpl; right; repeat split; try congruence.
        right; right; repeat split; [assumption | lia | lia | lia].
      * apply IH; [assumption | simpl; lia | congruence | congruence].
  - simpl; left; repeat split; try assumption; lia.
Qed.

(** The two ways a step ends for its caller. *)
Lemma run_step_cases (s : InterviewState) (log : Log) :
  (exists s',
     fst (run_step s log) = Returned s'
     /\ graph_keeps s s' /\ rest_point settings s s'
     /\ exists ms, conversation_history s'
                   = (conversation_history s ++ ms)%list)
  \/ (exists ms,
        fst (run_step s log)
        = Raised GraphRecursionError
            (set_conversation_history (conversation_history s ++ ms)%list s)).
Proof.
  unfold Workflow.run_step, Workflow.graph_invoke, bind.
  pose proof (invoke_from_keeps recursion_limit Workflow.entry_point [] s log)
    as Hk.
  pose proof (invoke_from_rest s recursion_limit Workflow.entry_point [] s log
                (same_progress_refl s) eq_refl eq_refl eq_refl) as Hr.
  destruct (invoke_from_extends settings prompts
              EVALUATION_AGENT_SYSTEM_PROMPT llm max_str_digits
              recursion_limit Workflow.entry_point [] s log)
    as (ps & ms & _ & Hh).
  destruct (invoke_from _ _ _ _ _) as [[[s1|s1] v] log1]; simpl in *.
  - left; exists s1; repeat split; try apply Hk; try exact Hr.
    exists ms; exact Hh.
  - right; exists ms; rewrite Hh; reflexivity.
Qed.

(** ** Invariants along the calls of a presentation layer *)

Lemma run_calls_preserves (Inv : InterviewState -> Prop) :
  (forall s log, Inv s -> Inv (state_of (fst (run_step s log)))) ->
  (forall s text, Inv s -> Inv (state_of (Workflow.process_answer s text))) ->
  forall (calls : list call) (s : InterviewState) (log : Log),
    Inv s -> Forall Inv (run_calls calls s log).
Proof.
  intros Hstep Hanswer.
  induction calls as [|[|text] rest IH]; intros s log H; simpl.
  - constructor.
  - unfold step. pose proof (Hstep s log H) as H1.
    destruct (run_step s log) as [o log1]; simpl in *.
    constructor; [exact H1 | apply IH; exact H1].
  - destruct (current_question s); [|constructor].
    pose proof (Hanswer s text H) as H1.
    constructor; [exact H1 | apply IH; exact H1].
Qed.

Lemma run_calls_chain (R : InterviewState -> InterviewState -> Prop) :
  (forall s log, R s (state_of (fst (run_step s log)))) ->
  (forall s text, R s (state_of (Workflow.process_answer s text))) ->
  forall (calls : list call) (s : InterviewState) (log : Log),
    chain R s (run_calls calls s log).
Proof.
  intros Hstep Hanswer.
  induction calls as [|[|text] rest IH]; intros s log; simpl.
  - exact I.
  - unfold step. pose proof (Hstep s log) as H1.
    destruct (run_step s log) as [o log1]; simpl in *.
    split; [exact H1 | apply IH].
  - destruct (current_question s); [|exact I].
    split; [apply Hanswer | apply IH].
Qed.

Lemma process_answer_candidate (s : InterviewState) (text : string) :
  same_candidate s (state_of (Workflow.process_answer s text)).
Proof.
  unfold Workflow.process_answer; simpl.
  destruct (current_question s) as [q|]; [|repeat split].
  destruct (PyStr.truthy q); [|repeat split].
  destruct (Round.validate (current_agent s)) as [[| |]|]; repeat split.
Qed.

Lemma run_step_candidate (s : InterviewState) (log : Log) :
  same_candidate s (state_of (fst (run_step s log))).
Proof.
  destruct (run_step_cases s log) as [(s' & E & (Hk & _) & _) | (ms & E)];
    rewrite E; simpl; [exact Hk | repeat split].
Qed.

Lemma process_answer_grows (s : InterviewState) (text : string) :
  grows s (state_of (Workflow.process_answer s text)).
Proof.
  unfold Workflow.process_answer, grows; simpl.
  destruct (current_question s) as [q|].
  - destruct (PyStr.truthy q).
    + destruct (Round.validate (current_agent s)) as [[| |]|]; simpl;
        repeat split; try lia;
        try (eexists; reflexivity);
        try (exists []; rewrite List.app_nil_r; reflexivity).
    + simpl; repeat split; try lia; try (eexists; reflexivity).
      exists []; rewrite List.app_nil_r; reflexivity.
  - simpl; repeat split; try lia; try (eexists; reflexivity).
    exists []; rewrite List.app_nil_r; reflexivity.
Qed.

Lemma run_step_grows (s : InterviewState) (log : Log) :
  grows s (state_of (fst (run_step s log))).
Proof.
  unfold grows.
  destruct (run_step_cases s log)
    as [(s' & E & (_ & (Ht & Hh & Hm & Hq) & _) & _ & Hms) | (ms & E)];
    rewrite E; simpl.
  - rewrite <- Ht, <- Hh, <- Hm, <- Hq. repeat split; try lia; [exact Hms|].
    exists []; rewrite List.app_nil_r; reflexivity.
  - repeat split; try lia; [exists ms; reflexivity|].
    exists []; rewrite List.app_nil_r; reflexivity.
Qed.

(** X7.  From one call to the next the transcript and the list of pairs
    only grow at their end and no counter decreases, whatever the model
    replies and whether or not a call raises. *)
Theorem transcript_and_pairs_append_only
    (calls : list call) (s : InterviewState) (log : Log) :
  chain grows s (run_calls calls s log).
Proof.
  apply run_calls_chain; [apply run_step_grows | apply process_answer_grows].
Qed.

(** X8.  The candidate's name, job role, experience level and resume text
    given to [create_initial_state] are those of every later state. *)
Theorem candidate_fields_never_change
    (name job level : string) (resume : option string)
    (calls : list call) (log : Log) :
  Forall (fun s => candidate_name s = name /\ job_role s = job
                   /\ experience_level s = level /\ resume_text s = resume)
         (run_calls calls (create_initial_state name job level resume) log).
Proof.
  apply run_calls_preserves; [| |repeat split].
  - intros s l (H1 & H2 & H3 & H4).
    destruct (run_step_candidate s l) as (E1 & E2 & E3 & E4).
    rewrite <- E1, <- E2, <- E3, <- E4; repeat split; assumption.
  - intros s t (H1 & H2 & H3 & H4).
    destruct (process_answer_candidate s t) as (E1 & E2 & E3 & E4).
    rewrite <- E1, <- E2, <- E3, <- E4; repeat split; assumption.
Qed.

Lemma process_answer_completion (s : InterviewState) (text : string) :
  is_complete (state_of (Workflow.process_answer s text)) = is_complete s
  /\ evaluation (state_of (Workflow.process_answer s text)) = evaluation s.
Proof.
  unfold Workflow.process_answer; simpl.
  destruct (current_question s) as [q|]; [|split; reflexivity].
  destruct (PyStr.truthy q); [|split; reflexivity].
  destruct (Round.validate (current_agent s)) as [[| |]|]; split; reflexivity.
Qed.

Lemma run_step_completion (s : InterviewState) (log : Log) :
  round_consistent settings s -> completion_ok s ->
  completion_ok (state_of (fst (run_step s log))).
Proof.
  intros Hr Hc.
  destruct (run_step_cases s log) as [(s' & E & _ & Hrest & _) | (ms & E)];
    rewrite E; simpl; [|exact Hc].
  destruct Hrest as [(Ha & _ & Hv & _) | (Hc' & Hv' & _ & Hwhere)].
  - intros _; split; assumption.
  - unfold completion_ok; rewrite Hc', Hv'. intros Hdone.
    destruct (Hc Hdone) as [Hagent _].
    unfold round_consistent in Hr; rewrite Hagent in Hr.
    destruct Hwhere as [(_ & ?) | [(_ & _ & ?) | (_ & _ & _ & ?)]]; lia.
Qed.

(** X6.  Along every sequence of calls from [create_initial_state], a
    state with [is_complete] true has its [evaluation] set, the tag
    [evaluation], and all three counters at or above their maxima. *)
Theorem complete_means_evaluated
    (name job level : string) (resume : option string)
    (calls : list call) (log : Log) :
  Forall (fun s =>
            is_complete s = true ->
            current_agent s = Agent.evaluation /\ evaluation s <> None
            /\ MAX_TECHNICAL_QUESTIONS settings <= technical_questions_asked s
            /\ MAX_HR_QUESTIONS settings <= hr_questions_asked s
            /\ MAX_MANAGER_QUESTIONS settings <= manager_questions_asked s)
         (run_calls calls (create_initial_state name job level resume) log).
Proof.
  eapply Forall_impl;
    [|apply (run_calls_preserves
               (fun s => round_consistent settings s /\ completion_ok s))].
  - intros s [Hr Hc] Hdone. destruct (Hc Hdone) as [Ha Hv].
    unfold round_consistent in Hr; rewrite Ha in Hr. tauto.
  - intros s l [Hr Hc]; split.
    + apply (run_step_order settings prompts EVALUATION_AGENT_SYSTEM_PROMPT
               llm max_str_digits recursion_limit s l Hr).
    + apply run_step_completion; assumption.
  - intros s t [Hr Hc]; split.
    + apply process_answer_consistent; exact Hr.
    + unfold completion_ok.
      destruct (process_answer_completion s t) as [E1 E2].
      rewrite E1, E2, process_answer_agent; exact Hc.
  - split; [split; reflexivity | discriminate].
Qed.

Lemma run_step_within (s : InterviewState) (log : Log) :
  round_consistent settings s ->
  within_maxima settings s /\ pending_below settings s ->
  within_maxima settings (state_of (fst (run_step s log)))
  /\ pending_below settings (state_of (fst (run_step s log))).
Proof.
  intros Hr [Hw Hp].
  destruct (run_step_cases s log)
    as [(s' & E & (_ & (Ht & Hh & Hm & _) & _) & Hrest & _) | (ms & E)];
    rewrite E; simpl; [|split; assumption].
  unfold within_maxima, pending_below in *.
  rewrite <- Ht, <- Hh, <- Hm. split; [exact Hw|]. intros _.
  destruct Hrest as [(Ha & _) | (_ & _ & _ & Hwhere)]; [rewrite Ha; exact I|].
  unfold round_consistent in Hr.
  destruct Hwhere as [(Ha & ?) | [(Ha & _ & ?) | (Ha & _ & _ & ?)]];
    rewrite Ha; try assumption.
  destruct (current_agent s); try exact I; try assumption; lia.
Qed.

Lemma process_answer_within (s : InterviewState) (text : string) :
  within_maxima settings s /\ pending_below settings s ->
  within_maxima settings (state_of (Workflow.process_answer s text))
  /\ pending_below settings (state_of (Workflow.process_answer s text)).
Proof.
  unfold within_maxima, pending_below, Workflow.process_answer; simpl.
  intros [Hw Hp].
  destruct (current_question s) as [q|];
    [|split; [exact Hw | discriminate]].
  simpl in Hp.
  destruct (PyStr.truthy q); [|split; [exact Hw | discriminate]].
  specialize (Hp eq_refl).
  destruct (current_agent s) eqn:Ea; simpl; rewrite ?Ea;
    (split; [lia | first [discriminate | intros _; exact I]]).
Qed.


(** ** One step, in closed form *)

Local Abbreviation persona_turn :=
  (invoke_from_persona settings prompts EVALUATION_AGENT_SYSTEM_PROMPT llm
     max_str_digits).
Local Abbreviation three_personas :=
  (invoke_three_personas settings prompts EVALUATION_AGENT_SYSTEM_PROMPT llm
     max_str_digits).
Local Abbreviation all_exhausted :=
  (run_step_all_exhausted settings prompts EVALUATION_AGENT_SYSTEM_PROMPT llm
     max_str_digits recursion_limit).

Lemma edge_technical_end (s : InterviewState) (q : string) :
  technical_questions_asked s < MAX_TECHNICAL_QUESTIONS settings ->
  current_question s = Some q -> q <> EmptyString ->
  Workflow.edge settings Workflow.n_technical s = Workflow.END.
Proof.
  intros H Hq Hne; simpl; unfold Workflow._route_from_technical.
  destruct (Z.leb_spec (MAX_TECHNICAL_QUESTIONS settings)
                       (technical_questions_asked s)); [lia|].
  rewrite Hq; simpl; rewrite (truthy_nonempty q Hne); reflexivity.
Qed.

Lemma edge_technical_again (s : InterviewState) :
  technical_questions_asked s < MAX_TECHNICAL_QUESTIONS settings ->
  current_question s = Some EmptyString ->
  Workflow.edge settings Workflow.n_technical s
  = Workflow.goto Workflow.n_technical.
Proof.
  intros H Hq; simpl; unfold Workflow._route_from_technical.
  destruct (Z.leb_spec (MAX_TECHNICAL_QUESTIONS settings)
                       (technical_questions_asked s)); [lia|].
  rewrite Hq; reflexivity.
Qed.


(** The closed form of a step, with its bounds. *)
Lemma run_step_closed_form (s : InterviewState) (log : Log) :
  (4 <= recursion_limit)%nat ->
  (forall (l : Log) (p : string), llm l p <> EmptyString) ->
  run_step s log
  = (Returned (fst (closed_step s log)), snd (closed_step s log))
  /\ (exists calls : Log,
        snd (closed_step s log) = (log ++ calls)%list
        /\ (1 <= List.length calls <= 4)%nat)
  /\ PyStr.truthy_opt (current_question (fst (closed_step s log))) = true.
Proof.
  intros Hfuel Hllm.
  split; [|split].
  - unfold straight_step.
    destruct (Z.ltb_spec (technical_questions_asked s)
                         (MAX_TECHNICAL_QUESTIONS settings)) as [Ht|Ht].
    { destruct recursion_limit as [|fuel]; [lia|].
      unfold Workflow.run_step, Workflow.graph_invoke, Workflow.entry_point,
             bind.
      rewrite (persona_turn _ _ Round.technical) by reflexivity.
      rewrite (edge_technical_end _
                 (llm log (question_prompt Round.technical s)))
        by (auto; apply asked_question).
      reflexivity. }
    destruct (Z.ltb_spec (hr_questions_asked s) (MAX_HR_QUESTIONS settings))
      as [Hh|Hh].
    { destruct recursion_limit as [|[|fuel]]; try lia.
      unfold Workflow.run_step, Workflow.graph_invoke, Workflow.entry_point,
             bind.
      rewrite (persona_turn _ _ Round.technical) by reflexivity.
      rewrite edge_technical_next by exact Ht.
      rewrite (persona_turn _ _ Round.hr) by reflexivity.
      match goal with
      | |- context [Workflow.edge settings Workflow.n_hr
                      (asked Round.hr ?q ?s1)] =>
          rewrite (edge_hr_end settings (asked Round.hr q s1) q)
            by (auto; apply asked_question)
      end.
      reflexivity. }
    destruct (Z.ltb_spec (manager_questions_asked s)
                         (MAX_MANAGER_QUESTIONS settings)) as [Hm|Hm].
    { destruct recursion_limit as [|[|[|fuel]]]; try lia.
      unfold Workflow.run_step, Workflow.graph_invoke, Workflow.entry_point,
             bind.
      rewrite (three_personas _ s log Ht Hh).
      rewrite (persona_turn _ _ Round.manager) by reflexivity.
      match goal with
      | |- context [Workflow.edge settings Workflow.n_manager
                      (asked Round.manager ?q ?s2)] =>
          rewrite (edge_manager_end settings (asked Round.manager q s2) q)
            by (auto; apply asked_question)
      end.
      reflexivity. }
    exact (proj1 (all_exhausted s log Hfuel Ht Hh Hm)).
  - unfold straight_step.
    repeat match goal with
           | |- context [if ?b then _ else _] => destruct b
           end; simpl; rewrite <- ?List.app_assoc; simpl;
      eexists; (split; [reflexivity | simpl; lia]).
  - unfold straight_step.
    repeat match goal with
           | |- context [if ?b then _ else _] => destruct b
           end; simpl; apply truthy_nonempty, Hllm.
Qed.



(** ** Empty replies *)

Lemma invoke_silent (Hsilent : forall l p, llm l p = EmptyString) :
  forall (fuel : nat) (visited : list Workflow.node) (s : InterviewState)
         (log : Log),
    technical_questions_asked s < MAX_TECHNICAL_QUESTIONS settings ->
    exists (reached : InterviewState) (v : list Workflow.node) (log' : Log),
      invoke_from fuel Workflow.n_technical visited s log
      = (inr reached, v, log')
      /\ conversation_history reached
         = (conversation_history s
            ++ repeat (mkMessage role_agent EmptyString
                         (Some Round.technical)) fuel)%list
      /\ List.length log' = (List.length log + fuel)%nat.
Proof.
  induction fuel as [|fuel IH]; intros visited s log Ht.
  - exists s, visited, log; simpl.
    rewrite List.app_nil_r, Nat.add_0_r; repeat split.
  - rewrite (persona_turn _ _ Round.technical) by reflexivity.
    rewrite Hsilent.
    rewrite edge_technical_again by (auto; apply asked_question).
    destruct (IH (visited ++ [Workflow.n_technical])%list
                (asked Round.technical EmptyString s)
                (log ++ [question_prompt Round.technical s])%list Ht)
      as (reached & v & log' & E & Hh & Hl).
    exists reached, v, log'; split; [exact E|]. split.
    + rewrite Hh; simpl; rewrite <- List.app_assoc; reflexivity.
    + rewrite Hl, List.length_app; simpl; lia.
Qed.

(** X3.  The "continue" edge is taken: when the model replies with the
    empty text while the technical round is not exhausted, the technical
    node is run again and again until the recursion limit, and the step
    raises [GraphRecursionError].  The model has then been called
    [recursion_limit] times, as many empty technical entries have been
    appended to the transcript the caller holds, and nothing else of its
    state has changed. *)
Theorem empty_replies_exhaust_the_recursion_limit
    (s : InterviewState) (log : Log) :
  (forall (l : Log) (p : string), llm l p = EmptyString) ->
  technical_questions_asked s < MAX_TECHNICAL_QUESTIONS settings ->
  fst (run_step s log)
  = Raised GraphRecursionError
      (set_conversation_history
         (conversation_history s
          ++ repeat (mkMessage role_agent EmptyString (Some Round.technical))
               recursion_limit)%list s)
  /\ List.length (snd (run_step s log))
     = (List.length log + recursion_limit)%nat.
Proof.
  intros Hsilent Ht.
  unfold Workflow.run_step, Workflow.graph_invoke, Workflow.entry_point, bind.
  destruct (invoke_silent Hsilent recursion_limit [] s log Ht)
    as (reached & v & log' & E & Hh & Hl).
  rewrite E; simpl; rewrite Hh; split; [reflexivity | exact Hl].
Qed.

(** ** The order of the nodes *)

Lemma edge_target (n n' : Workflow.node) (s : InterviewState) :
  Workflow.edge settings n s = Workflow.goto n' ->
  node_rank n <= node_rank n' <= node_rank n + 1.
Proof.
  destruct n; simpl;
    unfold Workflow._route_from_technical, Workflow._route_from_hr,
           Workflow._route_from_manager;
    repeat match goal with
           | |- context [if ?b then _ else _] => destruct b
           end;
    intros H; inversion H; simpl; lia.
Qed.

Lemma invoke_visits :
  forall (fuel : nat) (n : Workflow.node) (visited : list Workflow.node)
         (s : InterviewState) (log : Log),
  exists w,
    snd (fst (invoke_from fuel n visited s log)) = (visited ++ w)%list
    /\ match w with
       | [] => fuel = 0%nat
       | first :: rest =>
           first = n
           /\ chain (fun a b => node_rank a <= node_rank b <= node_rank a + 1)
                    n rest
       end.
Proof.
  induction fuel as [|fuel IH]; intros n visited s log.
  - exists []; simpl; rewrite List.app_nil_r; split; reflexivity.
  - rewrite invoke_S.
    destruct (Workflow.edge settings n (fst (run_node n s log)))
      as [n'|] eqn:E.
    + destruct (IH n' (visited ++ [n])%list (fst (run_node n s log))
                  (snd (run_node n s log))) as (w & Hw & Hchain).
      exists (n :: w); rewrite Hw, <- List.app_assoc; split; [reflexivity|].
      split; [reflexivity|].
      destruct w as [|first rest]; [exact I|].
      destruct Hchain as [-> Hchain]; split; [|exact Hchain].
      exact (edge_target _ _ _ E).
    + exists [n]; simpl; repeat split.
Qed.

(** X4.  Every step enters the graph at the technical node, and from one
    executed node to the next the graph stays where it is or moves one
    node further in the order technical, hr, manager, evaluation: it never
    goes back and never passes over a node. *)
Theorem nodes_run_in_round_order (s : InterviewState) (log : Log) :
  (1 <= recursion_limit)%nat ->
  exists rest,
    nodes_visited s log = Workflow.n_technical :: rest
    /\ chain (fun a b => node_rank a <= node_rank b <= node_rank a + 1)
             Workflow.n_technical rest.
Proof.
  intros Hfuel. unfold Workflow.nodes_visited, Workflow.graph_invoke.
  destruct (invoke_visits recursion_limit Workflow.entry_point [] s log)
    as (w & Hw & Hchain).
  rewrite Hw; simpl.
  destruct w as [|first rest]; [lia|].
  destruct Hchain as [-> Hchain]; exists rest; split; [reflexivity|].
  exact Hchain.
Qed.

(** ** After the evaluation *)


Lemma closed_step_completion (s : InterviewState) (log : Log) :
  is_complete (fst (closed_step s log)) = true ->
  is_complete s = true
  \/ current_agent (fst (closed_step s log)) = Agent.evaluation.
Proof.
  unfold straight_step.
  repeat match goal with
         | |- context [if ?b then _ else _] => destruct b
         end; simpl; auto.
Qed.

(** X10.  The loop of [run_interview] in [main.py] never leaves through
    its condition: when the model never replies with the empty text, a run
    started from a state that is not complete ends with an exception of the
    workflow or with the end of the input (or is still running), never
    with the completion message.  The step that completes the interview
    leaves a question pending, the loop asks for its answer, and recording
    that answer raises. *)
Theorem cli_loop_never_completes :
  (4 <= recursion_limit)%nat ->
  (forall (l : Log) (p : string), llm l p <> EmptyString) ->
  forall (fuel : nat) (inputs : list string) (s : InterviewState) (log : Log),
    is_complete s = false ->
    forall s', fst (main_loop fuel inputs s log) <> completed s'.
Proof.
  intros Hfuel Hllm.
  induction fuel as [|fuel IH]; intros inputs s log Hc s';
    simpl; rewrite Hc; [discriminate|].
  destruct (run_step_closed_form (set_last_answer None s) log Hfuel Hllm)
    as (E & _ & Hpending).
  rewrite E, Hpending.
  destruct (read_answer inputs) as [[answer rest]|]; [|discriminate].
  destruct (Workflow.process_answer (fst (closed_step _ log)) answer)
    as [s3|e s3] eqn:Ea; [|discriminate].
  apply IH.
  destruct (process_answer_completion (fst (closed_step
              (set_last_answer None s) log)) answer) as [Hsame _].
  rewrite Ea in Hsame; simpl in Hsame; rewrite Hsame.
  destruct (is_complete (fst (closed_step (set_last_answer None s) log)))
    eqn:Hdone; [|reflexivity].
  exfalso.
  destruct (closed_step_completion _ _ Hdone) as [H|Hagent];
    [simpl in H; congruence|].
  destruct (current_question (fst (closed_step (set_last_answer None s) log)))
    as [q|] eqn:Eq; [|discriminate].
  rewrite (process_answer_rejected _ q answer Eq Hpending) in Ea;
    [discriminate | rewrite Hagent; reflexivity].
Qed.

End StepProperties.

(* ------------------------------------------------------------------ *)
(** * Further properties of the agents *)

(** ** The conversation window *)

(** X11.  Only the last five messages of the transcript enter a persona
    prompt: whatever precedes five messages does not change the rendered
    history. *)
Theorem history_shows_last_five_messages (older recent : list Message) :
  List.length recent = 5%nat ->
  Workflow._build_conversation_history (older ++ recent)%list
  = Workflow._build_conversation_history recent.
Proof.
  intros Hlen. unfold Workflow._build_conversation_history, Workflow.last_five.
  assert (E1 : skipn (List.length (older ++ recent) - 5) (older ++ recent)%list
               = recent).
  { rewrite List.length_app, Hlen, Nat.add_sub.
    rewrite List.skipn_app, List.skipn_all, Nat.sub_diag; reflexivity. }
  assert (E2 : skipn (List.length recent - 5) recent = recent)
    by (rewrite Hlen; reflexivity).
  rewrite E1, E2.
  destruct recent as [|m recent]; [discriminate|].
  destruct older; reflexivity.
Qed.

(** ** The size of the resume section *)

Lemma str_length_app (a b : string) :
  String.length (a ++ b) = (String.length a + String.length b)%nat.
Proof. induction a as [|c a IH]; simpl; [|rewrite IH]; reflexivity. Qed.

Lemma substring_length_le (s : string) :
  forall n, (String.length (String.substring 0 n s) <= n)%nat.
Proof.
  induction s as [|c s IH]; intros [|n]; simpl; try lia.
  specialize (IH n); lia.
Qed.

(** X12.  Whatever the length of the resume, it adds at most 2000
    characters and a fixed frame to a persona prompt. *)
Theorem resume_section_is_bounded
    (prompts : Round.t -> bool -> Templates.template Templates.prompt_field)
    (agent_type : Round.t) (name job level : string) (question_number : Z)
    (history : string) (is_first : bool) (resume : option string) :
  (String.length
     (Templates.get_agent_prompt prompts agent_type name job level
        question_number history is_first resume)
   <= String.length
        (Templates.get_agent_prompt prompts agent_type name job level
           question_number history is_first None)
      + 2000 + resume_overhead)%nat.
Proof.
  unfold Templates.get_agent_prompt. rewrite !str_length_app.
  unfold Templates.resume_context, resume_overhead.
  destruct resume as [text|]; [|simpl; lia].
  destruct (PyStr.truthy text); [|simpl; lia].
  rewrite !str_length_app. unfold PyStr.slice_to.
  pose proof (substring_length_le text 2000) as Hs.
  destruct (2000 <? String.length text)%nat; simpl String.length; lia.
Qed.

(** ** The evaluation parser: sections and items *)

Lemma lstrip_idempotent (p : ascii -> bool) (s : string) :
  PyStr.lstrip_where p (PyStr.lstrip_where p s) = PyStr.lstrip_where p s.
Proof.
  induction s as [|c s IH]; [reflexivity|].
  simpl; destruct (p c) eqn:E; [exact IH | simpl; rewrite E; reflexivity].
Qed.

Lemma rstrip_cons (p : ascii -> bool) (c : ascii) (s : string) :
  PyStr.rstrip_where p (String c s)
  = match PyStr.rstrip_where p s with
    | EmptyString => if p c then EmptyString else String c EmptyString
    | String d r => String c (String d r)
    end.
Proof. reflexivity. Qed.

Lemma rstrip_idempotent (p : ascii -> bool) (s : string) :
  PyStr.rstrip_where p (PyStr.rstrip_where p s) = PyStr.rstrip_where p s.
Proof.
  induction s as [|c s IH]; [reflexivity|].
  rewrite rstrip_cons.
  destruct (PyStr.rstrip_where p s) as [|d r] eqn:E.
  - destruct (p c) eqn:Ep; [reflexivity|].
    rewrite rstrip_cons; simpl; rewrite Ep; reflexivity.
  - rewrite rstrip_cons, IH; reflexivity.
Qed.

Lemma rstrip_fixed_tail (p : ascii -> bool) (c : ascii) (y : string) :
  PyStr.rstrip_where p (String c y) = String c y ->
  PyStr.rstrip_where p y = y.
Proof.
  rewrite rstrip_cons; destruct (PyStr.rstrip_where p y) as [|d r].
  - destruct (p c); intros H; inversion H; reflexivity.
  - intros H; inversion H; reflexivity.
Qed.

Lemma rstrip_of_lstrip (p : ascii -> bool) (y : string) :
  PyStr.rstrip_where p y = y ->
  PyStr.rstrip_where p (PyStr.lstrip_where p y) = PyStr.lstrip_where p y.
Proof.
  induction y as [|c y IH]; intros H; [reflexivity|].
  cbn [PyStr.lstrip_where]; destruct (p c); [|exact H].
  apply IH, (rstrip_fixed_tail p c), H.
Qed.

(** Stripping what is stripped changes nothing. *)
Lemma strip_idempotent (s : string) :
  PyStr.strip (PyStr.strip s) = PyStr.strip s.
Proof.
  unfold PyStr.strip.
  rewrite (rstrip_of_lstrip _ _ (rstrip_idempotent _ s)).
  apply lstrip_idempotent.
Qed.

Lemma strip_trimmed (s : string) :
  PyStr.truthy (PyStr.strip s) = true -> trimmed (PyStr.strip s).
Proof.
  intros H; split; [|apply strip_idempotent].
  destruct (PyStr.strip s); [discriminate | discriminate].
Qed.

(** A piece of a line of a text that contains a word: the text contains
    it. *)
Lemma line_word_in_text (w text l : string) :
  In l (PyStr.split_lines (PyStr.strip text)) ->
  PyStr.contains w (PyStr.upper (PyStr.strip l)) = true ->
  PyStr.contains w (PyStr.upper text) = true.
Proof.
  intros Hl E.
  destruct (strip_inside l) as (x1 & y1 & E1).
  destruct (split_lines_inside _ l Hl) as (x2 & y2 & E2).
  destruct (strip_inside text) as (x3 & y3 & E3).
  pose proof (contains_inside _ x1 _ y1 E) as C1; rewrite <- E1 in C1.
  pose proof (contains_inside _ x2 _ y2 C1) as C2; rewrite <- E2 in C2.
  pose proof (contains_inside _ x3 _ y3 C2) as C3; rewrite <- E3 in C3.
  exact C3.
Qed.

Lemma no_section_word_lines (text : string) :
  no_section_word text ->
  Forall (fun l => no_section_word (PyStr.strip l))
         (PyStr.split_lines (PyStr.strip text)).
Proof.
  intros H; apply Forall_forall; intros l Hl.
  unfold no_section_word in *.
  eapply Forall_impl; [|exact H].
  intros w Hw; simpl in Hw.
  destruct (PyStr.contains w (PyStr.upper (PyStr.strip l))) eqn:E;
    [|reflexivity].
  rewrite (line_word_in_text w text l Hl E) in Hw; discriminate.
Qed.

Section ParserSections.

Variable max_str_digits : nat.

Local Abbreviation parse_line := (EvaluationAgent.parse_line max_str_digits).
Local Abbreviation parse_lines := (EvaluationAgent.parse_lines max_str_digits).
Local Abbreviation _parse_evaluation :=
  (EvaluationAgent._parse_evaluation max_str_digits).

(** Outside every section, a line without a section word adds nothing. *)
Lemma parse_line_outside (st : EvaluationAgent.parse_state) (raw : string) :
  EvaluationAgent.current_section st = None ->
  no_section_word (PyStr.strip raw) ->
  EvaluationAgent.current_section (parse_line st raw) = None
  /\ strengths (EvaluationAgent.acc (parse_line st raw))
     = strengths (EvaluationAgent.acc st)
  /\ weaknesses (EvaluationAgent.acc (parse_line st raw))
     = weaknesses (EvaluationAgent.acc st)
  /\ suggestions (EvaluationAgent.acc (parse_line st raw))
     = suggestions (EvaluationAgent.acc st).
Proof.
  intros Hnone Hno. unfold no_section_word, section_words in Hno.
  repeat match goal with
         | H : Forall _ (_ :: _) |- _ => inversion H; clear H; subst
         end.
  unfold EvaluationAgent.parse_line.
  destruct (EvaluationAgent.is_score_line (PyStr.strip raw)).
  - destruct (EvaluationAgent.extract_score max_str_digits (PyStr.strip raw));
      simpl; repeat split; assumption.
  - repeat match goal with
           | H : PyStr.contains _ _ = false |- _ => rewrite H; clear H
           end.
    simpl; rewrite Hnone; repeat split; assumption.
Qed.

Lemma fold_parse_outside (lines : list string) :
  Forall (fun l => no_section_word (PyStr.strip l)) lines ->
  forall st,
    EvaluationAgent.current_section st = None ->
    strengths (EvaluationAgent.acc (fold_left parse_line lines st))
    = strengths (EvaluationAgent.acc st)
    /\ weaknesses (EvaluationAgent.acc (fold_left parse_line lines st))
       = weaknesses (EvaluationAgent.acc st)
    /\ suggestions (EvaluationAgent.acc (fold_left parse_line lines st))
       = suggestions (EvaluationAgent.acc st).
Proof.
  induction 1 as [|l rest Hl _ IH]; intros st Hnone; [repeat split|].
  destruct (parse_line_outside st l Hnone Hl) as (Hn & E1 & E2 & E3).
  simpl; destruct (IH _ Hn) as (F1 & F2 & F3).
  rewrite F1, F2, F3; repeat split; assumption.
Qed.


Lemma add_content_trimmed (k : EvaluationAgent.section_key) (x : string)
    (e : EvaluationDict) :
  trimmed x -> lists_trimmed e ->
  lists_trimmed (EvaluationAgent.add_content k x e).
Proof.
  unfold lists_trimmed; intros Hx (H1 & H2 & H3).
  destruct k; simpl; repeat split; try assumption;
    apply Forall_app; split; try assumption; constructor; auto.
Qed.

Lemma parse_line_trimmed (st : EvaluationAgent.parse_state) (raw : string) :
  lists_trimmed (EvaluationAgent.acc st) ->
  lists_trimmed (EvaluationAgent.acc (parse_line st raw)).
Proof.
  intros H. unfold EvaluationAgent.parse_line.
  destruct (EvaluationAgent.is_score_line (PyStr.strip raw)).
  { destruct (EvaluationAgent.extract_score max_str_digits (PyStr.strip raw));
      exact H. }
  repeat match goal with
         | |- context [if ?b || ?c then _ else _] => destruct (b || c)
         | |- context [if PyStr.contains ?a ?b then _ else _] =>
             destruct (PyStr.contains a b)
         end; try exact H.
  destruct (EvaluationAgent.current_section st) as [k|]; [|exact H].
  destruct (PyStr.truthy (PyStr.strip raw)); [|exact H].
  destruct (PyStr.truthy (PyStr.strip (PyStr.lstrip_chars _ _))) eqn:E;
    [|exact H].
  simpl; apply add_content_trimmed; [apply strip_trimmed, E | exact H].
Qed.

(** X14.  Every item of the strengths, weaknesses and suggestions of a
    parsed evaluation is non-empty and carries no white space at either
    end. *)
Theorem parsed_items_are_trimmed (text : string) :
  lists_trimmed (_parse_evaluation text).
Proof.
  assert (H : forall lines st,
             lists_trimmed (EvaluationAgent.acc st) ->
             lists_trimmed
               (EvaluationAgent.acc (fold_left parse_line lines st))).
  { induction lines as [|l rest IH]; intros st Hst; [exact Hst|].
    simpl; apply IH, parse_line_trimmed, Hst. }
  unfold EvaluationAgent._parse_evaluation, EvaluationAgent.parse_lines.
  match goal with
  | |- context [fold_left ?f ?l ?st] =>
      pose proof (H l st (conj (Forall_nil _)
                            (conj (Forall_nil _) (Forall_nil _)))) as Hl
  end.
  destruct (_ && _); [|exact Hl].
  exact Hl.
Qed.

End ParserSections.

(* ------------------------------------------------------------------ *)
(** * Completion *)

Lemma process_answer_rounds (s : InterviewState) (text : string) :
  rounds_match_counters s ->
  rounds_match_counters (state_of (Workflow.process_answer s text)).
Proof.
  intros H. unfold Workflow.process_answer; simpl.
  destruct (current_question s) as [q|]; [|exact H].
  destruct (PyStr.truthy q); [|exact H].
  destruct (Round.validate (current_agent s)) as [tag|]; [|exact H].
  intros r; specialize (H r); unfold pairs_of_round in *.
  destruct tag, r; simpl in *; rewrite List.filter_app; simpl;
    rewrite ?List.app_nil_r, ?length_snoc; lia.
Qed.

Section CompletionProperties.

Variable settings : Settings.
Variable prompts : Round.t -> bool -> Templates.template Templates.prompt_field.
Variable EVALUATION_AGENT_SYSTEM_PROMPT :
  Templates.template Templates.evaluation_field.
Variable llm : Log -> string -> string.
Variable max_str_digits : nat.
Variable recursion_limit : nat.

Local Abbreviation run_step :=
  (Workflow.run_step settings prompts EVALUATION_AGENT_SYSTEM_PROMPT llm
     max_str_digits recursion_limit).
Local Abbreviation run_calls :=
  (run_calls settings prompts EVALUATION_AGENT_SYSTEM_PROMPT llm
     max_str_digits recursion_limit).
Local Abbreviation closed_step :=
  (straight_step settings prompts EVALUATION_AGENT_SYSTEM_PROMPT llm
     max_str_digits).
Local Abbreviation step_cases :=
  (run_step_cases settings prompts EVALUATION_AGENT_SYSTEM_PROMPT llm
     max_str_digits recursion_limit).
Local Abbreviation preserves :=
  (run_calls_preserves settings prompts EVALUATION_AGENT_SYSTEM_PROMPT llm
     max_str_digits recursion_limit).

Lemma run_step_rounds (s : InterviewState) (log : Log) :
  rounds_match_counters s ->
  rounds_match_counters (state_of (fst (run_step s log))).
Proof.
  intros H r; specialize (H r); unfold pairs_of_round in *.
  destruct (step_cases s log)
    as [(s' & E & (_ & (Ht & Hh & Hm & Hq) & _) & _) | (ms & E)];
    rewrite E; simpl; [|exact H].
  rewrite <- Hq. destruct r; simpl in *; congruence.
Qed.

(** X17.  Along every sequence of calls from [create_initial_state], each
    round's counter equals the number of recorded pairs that carry the
    round's tag. *)
Theorem each_round_counter_counts_its_pairs
    (name job level : string) (resume : option string)
    (calls : list call) (log : Log) :
  Forall rounds_match_counters
         (run_calls calls (create_initial_state name job level resume) log).
Proof.
  apply preserves.
  - intros s l; apply run_step_rounds.
  - intros s t; apply process_answer_rounds.
  - intros [| |]; reflexivity.
Qed.


(** X16.  When the three maxima are not negative, a completed interview
    reached by calls from [create_initial_state] has each counter exactly
    at its maximum, and as many recorded pairs as the three maxima add up
    to. *)
Theorem completed_interview_has_every_answer
    (name job level : string) (resume : option string)
    (calls : list call) (log : Log) :
  0 <= MAX_TECHNICAL_QUESTIONS settings ->
  0 <= MAX_HR_QUESTIONS settings ->
  0 <= MAX_MANAGER_QUESTIONS settings ->
  Forall (fun s =>
            is_complete s = true ->
            technical_questions_asked s = MAX_TECHNICAL_QUESTIONS settings
            /\ hr_questions_asked s = MAX_HR_QUESTIONS settings
            /\ manager_questions_asked s = MAX_MANAGER_QUESTIONS settings
            /\ Z.of_nat (List.length (qa_pairs s))
               = MAX_TECHNICAL_QUESTIONS settings + MAX_HR_QUESTIONS settings
                 + MAX_MANAGER_QUESTIONS settings)
         (run_calls calls (create_initial_state name job level resume) log).
Proof.
  intros H1 H2 H3.
  eapply Forall_impl;
    [|apply (preserves
               (fun s => (round_consistent settings s /\ completion_ok s)
                         /\ (within_maxima settings s
                             /\ pending_below settings s)
                         /\ pairs_match_counters s))].
  - intros s ((Hr & Hc) & ((Wt & Wh & Wm) & _) & Hp) Hdone.
    destruct (Hc Hdone) as [Ha _].
    unfold round_consistent in Hr; rewrite Ha in Hr.
    unfold pairs_match_counters in Hp. lia.
  - intros s l ((Hr & Hc) & Hw & Hp); split; [split | split].
    + apply (run_step_order settings prompts EVALUATION_AGENT_SYSTEM_PROMPT
               llm max_str_digits recursion_limit s l Hr).
    + apply run_step_completion; assumption.
    + apply run_step_within; assumption.
    + apply run_step_invariant; assumption.
  - intros s t ((Hr & Hc) & Hw & Hp); split; [split | split].
    + apply process_answer_consistent; exact Hr.
    + unfold completion_ok.
      destruct (process_answer_completion s t) as [E1 E2].
      rewrite E1, E2, process_answer_agent; exact Hc.
    + apply process_answer_within; exact Hw.
    + apply process_answer_invariant; exact Hp.
  - split; [split; [split; reflexivity | discriminate]|].
    split; [split; [repeat split; simpl; assumption | discriminate]|].
    reflexivity.
Qed.

End CompletionProperties.

(* ------------------------------------------------------------------ *)
(** ** The further properties on concrete interviews *)



Lemma empty_replies_witness :
  List.length
    (snd (Workflow.run_step default_settings demo_prompts
            demo_evaluation_prompt silent_llm PyStr.default_max_str_digits 25
            demo_state []))
  = 25%nat.
Proof.
  apply (empty_replies_exhaust_the_recursion_limit default_settings
           demo_prompts demo_evaluation_prompt silent_llm
           PyStr.default_max_str_digits 25 demo_state []);
    [reflexivity | vm_compute; reflexivity].
Defined.

Lemma nodes_run_in_round_order_witness :
  exists rest,
    Workflow.nodes_visited one_each demo_prompts demo_evaluation_prompt
      demo_llm PyStr.default_max_str_digits 25 all_done_state []
    = Workflow.n_technical :: rest
    /\ chain (fun a b => node_rank a <= node_rank b <= node_rank a + 1)
             Workflow.n_technical rest.
Proof.
  apply (nodes_run_in_round_order one_each demo_prompts
           demo_evaluation_prompt demo_llm PyStr.default_max_str_digits 25
           all_done_state []); lia.
Defined.



Lemma cli_loop_never_completes_witness :
  match
    fst (interview_loop one_each demo_prompts demo_evaluation_prompt demo_llm
           PyStr.default_max_str_digits 25 10 ["x"; " "; "y"; "z"; "bye"]
           demo_state [])
  with
  | completed _ => False
  | failed e _ => e = ValidationError
  | input_ended _ | still_running _ => True
  end.
Proof.
  pose proof (cli_loop_never_completes one_each demo_prompts
                demo_evaluation_prompt demo_llm PyStr.default_max_str_digits
                25 ltac:(lia) demo_llm_nonempty 10
                ["x"; " "; "y"; "z"; "bye"] demo_state [] eq_refl) as H.
  destruct (fst (interview_loop one_each demo_prompts demo_evaluation_prompt
                   demo_llm PyStr.default_max_str_digits 25 10
                   ["x"; " "; "y"; "z"; "bye"] demo_state [])) eqn:E;
    try exact I.
  - exact (H s eq_refl).
  - vm_compute in E. inversion E; reflexivity.
Defined.

Lemma history_window_witness :
  Workflow._build_conversation_history
    ([mkMessage role_agent "Welcome." (Some Round.technical)]
     ++ repeat (mkMessage role_user "Yes." None) 5)%list
  = Workflow._build_conversation_history
      (repeat (mkMessage role_user "Yes." None) 5).
Proof.
  apply (history_shows_last_five_messages
           [mkMessage role_agent "Welcome." (Some Round.technical)]
           (repeat (mkMessage role_user "Yes." None) 5)).
  reflexivity.
Defined.



Lemma completed_interview_witness :
  Forall (fun s =>
            is_complete s = true ->
            technical_questions_asked s = MAX_TECHNICAL_QUESTIONS one_each
            /\ hr_questions_asked s = MAX_HR_QUESTIONS one_each
            /\ manager_questions_asked s = MAX_MANAGER_QUESTIONS one_each
            /\ Z.of_nat (List.length (qa_pairs s))
               = MAX_TECHNICAL_QUESTIONS one_each + MAX_HR_QUESTIONS one_each
                 + MAX_MANAGER_QUESTIONS one_each)
         end_to_end.
Proof.
  apply (completed_interview_has_every_answer one_each demo_prompts
           demo_evaluation_prompt demo_llm PyStr.default_max_str_digits 25
           "Ada" "Engineer" "Senior" None
           [Step; Answer "x"; Step; Answer "y"; Step; Answer "z"; Step] []);
    vm_compute; discriminate.
Defined.
